(** * resume-Ai: the structured analysis request pipeline

    A shallow embedding of [src/services/geminiService.ts] (the service
    function [analyzeResume]) and of the [handleAnalyze] handler of
    [src/App.tsx], with the properties of the request/response pipeline
    stated and proved over it.

    Conventions.
    - A JavaScript string is a sequence of UTF-16 code units; [length],
      [slice] and [trim] count and inspect code units, so a "character"
      below is a code unit.
    - [await] on the single remote call is modelled sequentially: the
      generation capability is a function from the request to what the
      promise settles to.
    - Calls that leave the function ([generateContent], [JSON.parse],
      [console.error], [setTimeout]) are recorded, in order, in a trace. *)

From Stdlib Require Import List ZArith NArith Bool Ascii String Lia.
Import ListNotations.

Set Implicit Arguments.
Set Warnings "-register-all".

(* ===================================================================== *)
(** ** JavaScript strings *)
(* ===================================================================== *)

Module JsString.

Definition code_unit := N.
Definition js_string := list code_unit.

(** An ASCII literal of the source text as a JavaScript string. *)
Fixpoint lit (s : string) : js_string :=
  match s with
  | EmptyString => []
  | String c r => N_of_ascii c :: lit r
  end.

Definition LF : js_string := [10%N].

Fixpoint eqb (a b : js_string) : bool :=
  match a, b with
  | [], [] => true
  | x :: a', y :: b' => N.eqb x y && eqb a' b'
  | _, _ => false
  end.

(** [ToBoolean] on a string: only the empty string is falsy. *)
Definition truthy (s : js_string) : bool :=
  match s with [] => false | _ :: _ => true end.

(** [String.prototype.slice(start, end)]: a negative index counts from
    the end, both are clamped to [0, length], and an empty string results
    when the start is not before the end. *)
Definition clamp_index (len i : Z) : Z :=
  if (i <? 0)%Z then Z.max (len + i) 0 else Z.min i len.

Definition slice (s : js_string) (start stop : Z) : js_string :=
  let len := Z.of_nat (List.length s) in
  let from := clamp_index len start in
  let to := clamp_index len stop in
  let span := Z.max (to - from) 0 in
  firstn (Z.to_nat span) (skipn (Z.to_nat from) s).

(** WhiteSpace and LineTerminator code units, the ones [trim] strips. *)
Definition isWhiteSpace (c : code_unit) : bool :=
  (N.eqb c 9 || N.eqb c 10 || N.eqb c 11 || N.eqb c 12 || N.eqb c 13
   || N.eqb c 32 || N.eqb c 160 || N.eqb c 5760
   || (N.leb 8192 c && N.leb c 8202)
   || N.eqb c 8232 || N.eqb c 8233 || N.eqb c 8239 || N.eqb c 8287
   || N.eqb c 12288 || N.eqb c 65279)%N.

Fixpoint trimStart (s : js_string) : js_string :=
  match s with
  | c :: r => if isWhiteSpace c then trimStart r else s
  | [] => []
  end.

Definition trimEnd (s : js_string) : js_string :=
  rev (trimStart (rev s)).

(** [String.prototype.trim]. *)
Definition trim (s : js_string) : js_string := trimEnd (trimStart s).

(** Does [needle] occur in [hay] starting at its first code unit? *)
Fixpoint startsWith (needle hay : js_string) : bool :=
  match needle, hay with
  | [], _ => true
  | x :: n', y :: h' => N.eqb x y && startsWith n' h'
  | _ :: _, [] => false
  end.

(** [String.prototype.includes]. *)
Fixpoint includes (hay needle : js_string) : bool :=
  startsWith needle hay
  || match hay with
     | [] => false
     | _ :: h' => includes h' needle
     end.

(** The rest of [s] after the prefix [p], when [s] starts with it. *)
Fixpoint stripPrefix (p s : js_string) : option js_string :=
  match p, s with
  | [], _ => Some s
  | x :: p', y :: s' => if N.eqb x y then stripPrefix p' s' else None
  | _ :: _, [] => None
  end.

End JsString.
Import JsString.

(* ===================================================================== *)
(** ** JSON values and [JSON.parse] *)
(* ===================================================================== *)

Module Json.

(** A JavaScript value as [JSON.parse] can produce it.  A number is kept as
    the decimal [mantissa * 10 ^ exponent] that its text denotes (an
    engine rounds it to the nearest binary64, which changes nothing for
    integers below 2^53).  An object is its own properties in insertion
    order, keys unique; the engine's reordering of integer-like keys on
    enumeration is not represented. *)
Inductive JsValue : Type :=
| JNull
| JBool (b : bool)
| JNumber (mantissa exponent : Z)
| JString (s : js_string)
| JArray (items : list JsValue)
| JObject (fields : list (js_string * JsValue)).

(** Property read [o[k]] on the own properties of an object. *)
Fixpoint get (k : js_string) (fields : list (js_string * JsValue))
  : option JsValue :=
  match fields with
  | [] => None
  | (k', v) :: r => if JsString.eqb k k' then Some v else get k r
  end.

(** Property definition: a repeated key overwrites the earlier value and
    keeps its place. *)
Fixpoint set (k : js_string) (v : JsValue)
  (fields : list (js_string * JsValue)) : list (js_string * JsValue) :=
  match fields with
  | [] => [(k, v)]
  | (k', v') :: r =>
      if JsString.eqb k k' then (k', v) :: r else (k', v') :: set k v r
  end.

Definition field (k : string) (v : JsValue) : option JsValue :=
  match v with
  | JObject fields => get (lit k) fields
  | _ => None
  end.

Definition index (i : nat) (v : JsValue) : option JsValue :=
  match v with
  | JArray items => nth_error items i
  | _ => None
  end.

(** A path into a value: property names and array positions. *)
Inductive Step : Type :=
| Key (k : string)
| Idx (i : nat).

Fixpoint at_path (p : list Step) (v : JsValue) : option JsValue :=
  match p with
  | [] => Some v
  | Key k :: p' =>
      match field k v with
      | Some v' => at_path p' v'
      | None => None
      end
  | Idx i :: p' =>
      match index i v with
      | Some v' => at_path p' v'
      | None => None
      end
  end.

Fixpoint remove_key (k : js_string) (fields : list (js_string * JsValue))
  : list (js_string * JsValue) :=
  match fields with
  | [] => []
  | (k', v) :: r =>
      if JsString.eqb k k' then remove_key k r else (k', v) :: remove_key k r
  end.

Fixpoint update_nth {A} (i : nat) (f : A -> A) (l : list A) : list A :=
  match l, i with
  | [], _ => []
  | x :: r, O => f x :: r
  | x :: r, S j => x :: update_nth j f r
  end.

(** The value with the property at the end of the path deleted. *)
Fixpoint remove_at (p : list Step) (v : JsValue) : JsValue :=
  match p, v with
  | [Key k], JObject fields => JObject (remove_key (lit k) fields)
  | Key k :: p', JObject fields =>
      JObject (map (fun kv =>
                      if JsString.eqb (lit k) (fst kv)
                      then (fst kv, remove_at p' (snd kv))
                      else kv) fields)
  | Idx i :: p', JArray items => JArray (update_nth i (remove_at p') items)
  | _, _ => v
  end.

(** *** The JSON grammar (ECMA-404), by recursive descent *)

Definition isJsonSpace (c : code_unit) : bool :=
  (N.eqb c 9 || N.eqb c 10 || N.eqb c 13 || N.eqb c 32)%N.

Fixpoint skip_ws (s : js_string) : js_string :=
  match s with
  | c :: r => if isJsonSpace c then skip_ws r else s
  | [] => []
  end.

Definition isDigit (c : code_unit) : bool := (N.leb 48 c && N.leb c 57)%N.

Definition hexValue (c : code_unit) : option N :=
  if (N.leb 48 c && N.leb c 57)%N then Some (c - 48)%N
  else if (N.leb 65 c && N.leb c 70)%N then Some (c - 55)%N
  else if (N.leb 97 c && N.leb c 102)%N then Some (c - 87)%N
  else None.

Definition hex4 (a b c d : code_unit) : option code_unit :=
  match hexValue a, hexValue b, hexValue c, hexValue d with
  | Some x, Some y, Some z, Some w => Some (((x * 16 + y) * 16 + z) * 16 + w)%N
  | _, _, _, _ => None
  end.

(** The single-character escapes after a backslash: quote, backslash,
    slash, b, f, n, r, t. *)
Definition escape (c : code_unit) : option code_unit :=
  if N.eqb c 34 then Some 34%N
  else if N.eqb c 92 then Some 92%N
  else if N.eqb c 47 then Some 47%N
  else if N.eqb c 98 then Some 8%N
  else if N.eqb c 102 then Some 12%N
  else if N.eqb c 110 then Some 10%N
  else if N.eqb c 114 then Some 13%N
  else if N.eqb c 116 then Some 9%N
  else None.

(** The characters of a string literal after its opening quote, up to and
    including the closing one. *)
Fixpoint string_chars (s acc : js_string) : option (js_string * js_string) :=
  match s with
  | [] => None
  | c :: r =>
      if N.eqb c 34 then Some (rev acc, r)
      else if N.eqb c 92 then
        match r with
        | [] => None
        | e :: r1 =>
            if N.eqb e 117 then
              match r1 with
              | h1 :: h2 :: h3 :: h4 :: r2 =>
                  match hex4 h1 h2 h3 h4 with
                  | Some u => string_chars r2 (u :: acc)
                  | None => None
                  end
              | _ => None
              end
            else
              match escape e with
              | Some x => string_chars r1 (x :: acc)
              | None => None
              end
        end
      else if N.ltb c 32 then None
      else string_chars r (c :: acc)
  end.

(** A maximal run of decimal digits: their value, their count, the rest. *)
Fixpoint digits (s : js_string) (acc : Z) (n : Z) : Z * Z * js_string :=
  match s with
  | c :: r =>
      if isDigit c then digits r (acc * 10 + Z.of_N (c - 48)) (n + 1)
      else (acc, n, s)
  | [] => (acc, n, [])
  end.

Definition number_int (s : js_string) : option (Z * js_string) :=
  match s with
  | c :: r =>
      if N.eqb c 48 then Some (0%Z, r)
      else if isDigit c then
        let '(m, _, r') := digits s 0 0 in Some (m, r')
      else None
  | [] => None
  end.

Definition number_frac (m : Z) (s : js_string) : option (Z * Z * js_string) :=
  match s with
  | 46%N :: r =>
      let '(m', n, r') := digits r m 0 in
      if (n =? 0)%Z then None else Some (m', (- n)%Z, r')
  | _ => Some (m, 0%Z, s)
  end.

Definition number_exp (s : js_string) : option (Z * js_string) :=
  let unsigned (neg : bool) (r : js_string) :=
    let '(e, n, r') := digits r 0 0 in
    if (n =? 0)%Z then None
    else Some (if neg then (- e)%Z else e, r') in
  match s with
  | c :: r =>
      if (N.eqb c 101 || N.eqb c 69)%bool then
        match r with
        | 43%N :: r1 => unsigned false r1
        | 45%N :: r1 => unsigned true r1
        | _ => unsigned false r
        end
      else Some (0%Z, s)
  | [] => Some (0%Z, [])
  end.

Definition number (s : js_string) : option (JsValue * js_string) :=
  let '(neg, s1) :=
    match s with
    | 45%N :: r => (true, r)
    | _ => (false, s)
    end in
  match number_int s1 with
  | None => None
  | Some (i, s2) =>
      match number_frac i s2 with
      | None => None
      | Some (m, e1, s3) =>
          match number_exp s3 with
          | None => None
          | Some (e2, s4) =>
              Some (JNumber (if neg then (- m)%Z else m) (e1 + e2), s4)
          end
      end
  end.

Definition keyword (s : js_string) : option (JsValue * js_string) :=
  match stripPrefix (lit "null") s with
  | Some r => Some (JNull, r)
  | None =>
      match stripPrefix (lit "true") s with
      | Some r => Some (JBool true, r)
      | None =>
          match stripPrefix (lit "false") s with
          | Some r => Some (JBool false, r)
          | None => None
          end
      end
  end.

Fixpoint value (fuel : nat) (s : js_string) : option (JsValue * js_string) :=
  match fuel with
  | O => None
  | S f =>
      match skip_ws s with
      | [] => None
      | c :: r =>
          if N.eqb c 34 then
            match string_chars r [] with
            | Some (str, r') => Some (JString str, r')
            | None => None
            end
          else if N.eqb c 91 then
            match skip_ws r with
            | 93%N :: r' => Some (JArray [], r')
            | _ => elements f r []
            end
          else if N.eqb c 123 then
            match skip_ws r with
            | 125%N :: r' => Some (JObject [], r')
            | _ => members f r []
            end
          else if (N.eqb c 45 || isDigit c)%bool then number (c :: r)
          else keyword (c :: r)
      end
  end

with elements (fuel : nat) (s : js_string) (acc : list JsValue)
  : option (JsValue * js_string) :=
  match fuel with
  | O => None
  | S f =>
      match value f s with
      | None => None
      | Some (v, r) =>
          match skip_ws r with
          | 44%N :: r' => elements f r' (v :: acc)
          | 93%N :: r' => Some (JArray (rev (v :: acc)), r')
          | _ => None
          end
      end
  end

with members (fuel : nat) (s : js_string) (acc : list (js_string * JsValue))
  : option (JsValue * js_string) :=
  match fuel with
  | O => None
  | S f =>
      match skip_ws s with
      | 34%N :: r =>
          match string_chars r [] with
          | None => None
          | Some (k, r1) =>
              match skip_ws r1 with
              | 58%N :: r2 =>
                  match value f r2 with
                  | None => None
                  | Some (v, r3) =>
                      match skip_ws r3 with
                      | 44%N :: r4 => members f r4 (set k v acc)
                      | 125%N :: r4 => Some (JObject (set k v acc), r4)
                      | _ => None
                      end
                  end
              | _ => None
              end
          end
      | _ => None
      end
  end.

(** [JSON.parse(text)] without a reviver: [None] where the engine throws a
    [SyntaxError]. *)
Definition parse (text : js_string) : option JsValue :=
  match value (S (List.length text)) text with
  | Some (v, r) =>
      match skip_ws r with
      | [] => Some v
      | _ :: _ => None
      end
  | None => None
  end.

End Json.
Import Json.

(* ===================================================================== *)
(** ** The generation SDK as the service sees it *)
(* ===================================================================== *)

Module GenAI.

(** [Type.*] schema descriptors of [@google/genai], as far as the service
    uses them. *)
Inductive Schema : Type :=
| NUMBER
| STRING
| ARRAY (items : Schema)
| OBJECT (properties : list (string * Schema)) (required : list string).

Record Part := { text : js_string }.
Record Content := { parts : list Part }.

Record GenerateContentConfig := {
  responseMimeType : js_string;
  responseSchema : Schema
}.

Record GenerateContentParameters := {
  model : js_string;
  contents : list Content;
  config : GenerateContentConfig
}.

(** The response object; its [text] accessor yields a string or
    [undefined]. *)
Record GenerateContentResponse := { response_text : option js_string }.

End GenAI.

(* ===================================================================== *)
(** ** Thrown values, completions and the trace of outside calls *)
(* ===================================================================== *)

(** What a [throw] carries: an instance of [Error] (or of a subclass such
    as [SyntaxError]) with its [name] and [message], or any other value. *)
Inductive JsThrown : Type :=
| JsError (name message : js_string)
| JsNonError (v : JsValue).

Definition new_Error (message : string) : JsThrown :=
  JsError (lit "Error") (lit message).

Definition instanceof_Error (e : JsThrown) : bool :=
  match e with
  | JsError _ _ => true
  | JsNonError _ => false
  end.

(** How a call ends: it returns a value or it throws (for an [async]
    function: its promise is fulfilled or rejected). *)
Inductive Completion (A : Type) : Type :=
| Normal (a : A)
| Abrupt (e : JsThrown).
Arguments Normal {A} a.
Arguments Abrupt {A} e.

Inductive Event : Type :=
| EvGenerateContent (request : GenAI.GenerateContentParameters)
    (outcome : Completion GenAI.GenerateContentResponse)
| EvJSONParse (text : js_string) (outcome : Completion JsValue)
| EvConsoleError (label : js_string) (error : JsThrown)
| EvSetTimeout (delay : Z) (scrollTo : js_string).

Definition Trace := list Event.

(** A computation over a state [St] that may throw. *)
Definition M (St A : Type) : Type := St -> Completion A * St.

Definition ret {St A} (a : A) : M St A := fun s => (Normal a, s).

Definition throw {St A} (e : JsThrown) : M St A := fun s => (Abrupt e, s).

Definition bind {St A B} (m : M St A) (k : A -> M St B) : M St B :=
  fun s =>
    match m s with
    | (Normal a, s') => k a s'
    | (Abrupt e, s') => (Abrupt e, s')
    end.

(** [try { body } catch (error) { handler }] *)
Definition try_catch {St A} (body : M St A) (handler : JsThrown -> M St A)
  : M St A :=
  fun s =>
    match body s with
    | (Normal a, s') => (Normal a, s')
    | (Abrupt e, s') => handler e s'
    end.

(** [try { body } finally { cleanup }]: the cleanup runs either way and the
    body's completion stands unless the cleanup itself throws. *)
Definition try_finally {St A} (body : M St A) (cleanup : M St unit)
  : M St A :=
  fun s =>
    match body s with
    | (c, s') =>
        match cleanup s' with
        | (Normal _, s'') => (c, s'')
        | (Abrupt e, s'') => (Abrupt e, s'')
        end
    end.

Definition emit {St} (log : Event -> St -> St) (ev : Event) : M St unit :=
  fun s => (Normal tt, log ev s).

Declare Scope js_scope.
Delimit Scope js_scope with js.
Notation "x <- m ;; k" := (bind m (fun x => k))
  (at level 61, m at next level, right associativity) : js_scope.
Notation "m ;; k" := (bind m (fun _ => k))
  (at level 61, right associativity) : js_scope.
Open Scope js_scope.

(** A settled call, replayed as a computation. *)
Definition settle {St A} (c : Completion A) : M St A := fun s => (c, s).

(* ===================================================================== *)
(** ** src/services/geminiService.ts *)
(* ===================================================================== *)

Module Service.

Import GenAI.

(** The [responseSchema] literal of the request configuration. *)
Definition responseSchema : Schema :=
  (OBJECT
    [ ("overallScore", NUMBER);
      ("grammarImprovements",
        OBJECT
          [ ("mistakes", ARRAY STRING);
            ("corrections",
              ARRAY (OBJECT [ ("original", STRING); ("improved", STRING) ]
                            [ "original"; "improved" ])) ]
          [ "mistakes"; "corrections" ]);
      ("atsOptimization",
        OBJECT
          [ ("missingKeywords", ARRAY STRING);
            ("formattingIssues", ARRAY STRING);
            ("sectionOrderImprovements", STRING) ]
          [ "missingKeywords"; "formattingIssues"; "sectionOrderImprovements" ]);
      ("skillGapAnalysis",
        OBJECT
          [ ("missingOrWeakSkills", ARRAY STRING);
            ("suggestions", ARRAY STRING) ]
          [ "missingOrWeakSkills"; "suggestions" ]);
      ("sectionFeedback",
        OBJECT
          [ ("professionalSummary", STRING);
            ("skills", STRING);
            ("experience", STRING);
            ("education", STRING) ]
          [ "professionalSummary"; "skills"; "experience"; "education" ]);
      ("improvedSummary", STRING);
      ("sevenDayActionPlan",
        ARRAY (OBJECT [ ("day", NUMBER); ("task", STRING) ]
                      [ "day"; "task" ])) ]
    [ "overallScore"; "grammarImprovements"; "atsOptimization";
      "skillGapAnalysis"; "sectionFeedback"; "improvedSummary";
      "sevenDayActionPlan" ])%string.

Definition model : js_string := lit "gemini-3-flash-preview".

(** [resumeText.slice(0, 15000)] *)
Definition truncatedText (resumeText : js_string) : js_string :=
  slice resumeText 0 15000.

(** The fixed pieces of the prompt template literal, between its three
    interpolations.  Every line of the template is indented by four
    spaces; the literal opens with a line break and closes with a line
    break and two spaces. *)
Definition prompt_before_resume : js_string :=
  LF ++ lit "    You are a professional Resume Analyzer, ATS Expert, and Career Coach."
  ++ LF ++ lit "    Analyze the user's resume based on the target job role and experience level provided."
  ++ LF ++ lit "    "
  ++ LF ++ lit "    USER INPUT:"
  ++ LF ++ lit "    Resume Text: ".

Definition prompt_before_role : js_string :=
  LF ++ lit "    Target Job Role: ".

Definition prompt_before_level : js_string :=
  LF ++ lit "    Experience Level: ".

Definition prompt_after_level : js_string :=
  LF
  ++ LF ++ lit "    INSTRUCTIONS:"
  ++ LF ++ lit "    Analyze based on:"
  ++ LF ++ lit "    - Grammar and language accuracy"
  ++ LF ++ lit "    - Professional tone and clarity"
  ++ LF ++ lit "    - ATS compatibility"
  ++ LF ++ lit "    - Relevance to the target job role"
  ++ LF ++ lit "    - Skills strength and gaps"
  ++ LF
  ++ LF ++ lit "    Provide the response strictly as a JSON object matching the schema."
  ++ LF ++ lit "  ".

Definition prompt (resumeText targetRole experienceLevel : js_string)
  : js_string :=
  prompt_before_resume ++ truncatedText resumeText
  ++ prompt_before_role ++ targetRole
  ++ prompt_before_level ++ experienceLevel
  ++ prompt_after_level.

(** The argument of [ai.models.generateContent]. *)
Definition request (resumeText targetRole experienceLevel : js_string)
  : GenerateContentParameters :=
  {| GenAI.model := model;
     contents :=
       [ {| parts := [ {| text := prompt resumeText targetRole experienceLevel |} ] |} ];
     config :=
       {| responseMimeType := lit "application/json";
          GenAI.responseSchema := responseSchema |} |}.

Section AnalyzeResume.

(** The two collaborators the function calls into: the remote generation
    call, which settles with a response or rejects with whatever the SDK
    throws, and the engine's [JSON.parse], which returns a value or throws
    its [SyntaxError]. *)
Variable generateContent :
  GenerateContentParameters -> Completion GenerateContentResponse.
Variable JSON_parse : js_string -> Completion JsValue.

Definition log (ev : Event) (t : Trace) : Trace := t ++ [ev].

Definition ai_models_generateContent (req : GenerateContentParameters)
  : M Trace GenerateContentResponse :=
  emit log (EvGenerateContent req (generateContent req)) ;;
  settle (generateContent req).

Definition JSON_parse_call (text : js_string) : M Trace JsValue :=
  emit log (EvJSONParse text (JSON_parse text)) ;;
  settle (JSON_parse text).

Definition console_error (label : string) (error : JsThrown) : M Trace unit :=
  emit log (EvConsoleError (lit label) error).

(** The check [if (!text)] is taken on [text : string | undefined]: both
    [undefined] and the empty string are falsy, every other string is
    truthy. *)
Definition analyzeResume (resumeText targetRole experienceLevel : js_string)
  : M Trace JsValue :=
  try_catch
    (response <- ai_models_generateContent
                   (request resumeText targetRole experienceLevel) ;;
     match response_text response with
     | None => throw (new_Error "Empty AI response")
     | Some text =>
         if negb (truthy text) then throw (new_Error "Empty AI response")
         else JSON_parse_call text
     end)
    (fun error =>
       console_error "Resume Analysis Error:" error ;;
       throw (new_Error "Failed to analyze resume. Please try again.")).

End AnalyzeResume.

End Service.

(* ===================================================================== *)
(** ** src/App.tsx: the component state and [handleAnalyze] *)
(* ===================================================================== *)

Module App.

Inductive View : Type := home | how_it_works | ats_guide | pricing.

(** The [useState] cells of the component. *)
Record AppState := {
  view : View;
  resumeText : js_string;
  targetRole : js_string;
  experienceLevel : js_string;
  isAnalyzing : bool;
  result : option JsValue;
  error : option js_string
}.

(** The initial values handed to [useState]. *)
Definition initial : AppState :=
  {| view := home; resumeText := []; targetRole := [];
     experienceLevel := lit "Junior"; isAnalyzing := false;
     result := None; error := None |}.

Definition World : Type := AppState * Trace.

Definition update (f : AppState -> AppState) : M World unit :=
  fun w => (Normal tt, (f (fst w), snd w)).

Definition setView (v : View) : M World unit :=
  update (fun a =>
    {| view := v; resumeText := resumeText a; targetRole := targetRole a;
       experienceLevel := experienceLevel a; isAnalyzing := isAnalyzing a;
       result := result a; error := error a |}).

Definition setIsAnalyzing (b : bool) : M World unit :=
  update (fun a =>
    {| view := view a; resumeText := resumeText a; targetRole := targetRole a;
       experienceLevel := experienceLevel a; isAnalyzing := b;
       result := result a; error := error a |}).

Definition setResult (r : option JsValue) : M World unit :=
  update (fun a =>
    {| view := view a; resumeText := resumeText a; targetRole := targetRole a;
       experienceLevel := experienceLevel a; isAnalyzing := isAnalyzing a;
       result := r; error := error a |}).

Definition setError (e : option js_string) : M World unit :=
  update (fun a =>
    {| view := view a; resumeText := resumeText a; targetRole := targetRole a;
       experienceLevel := experienceLevel a; isAnalyzing := isAnalyzing a;
       result := result a; error := e |}).

(** A service call, run on the trace component of the world. *)
Definition service {A} (m : M Trace A) : M World A :=
  fun w =>
    match m (snd w) with
    | (c, t) => (c, (fst w, t))
    end.

(** [setTimeout(() => document.getElementById(id)?.scrollIntoView(..), ms)] *)
Definition setTimeout_scrollIntoView (id : string) (ms : Z) : M World unit :=
  emit (fun ev w => (fst w, Service.log ev (snd w))) (EvSetTimeout ms (lit id)).

Section HandleAnalyze.

Variable generateContent :
  GenAI.GenerateContentParameters -> Completion GenAI.GenerateContentResponse.
Variable JSON_parse : js_string -> Completion JsValue.

(** The handler closes over the state of the render it was created in:
    [a] holds the values of [resumeText], [targetRole] and
    [experienceLevel] it sees. *)
Definition handleAnalyze (a : AppState) : M World unit :=
  if (negb (truthy (trim (resumeText a)))
      || negb (truthy (trim (targetRole a))))%bool
  then
    setError (Some (lit "Please provide both resume text and target job role."))
  else
    setIsAnalyzing true ;;
    setError None ;;
    try_finally
      (try_catch
         (analysis <- service (Service.analyzeResume generateContent JSON_parse
                                 (resumeText a) (targetRole a)
                                 (experienceLevel a)) ;;
          setResult (Some analysis) ;;
          setView home ;;
          setTimeout_scrollIntoView "machine-results" 500)
         (fun err =>
            setError
              (Some (match err with
                     | JsError _ message => message
                     | JsNonError _ =>
                         lit "An unexpected error occurred during analysis."
                     end)) ;;
            setResult None))
      (setIsAnalyzing false).

(** Clicking the button runs the handler of the current render. *)
Definition click (w : World) : Completion unit * World :=
  handleAnalyze (fst w) w.

End HandleAnalyze.

End App.

(* ===================================================================== *)
(** ** Vocabulary of the properties *)
(* ===================================================================== *)

Module Contract.

Import GenAI.

(** Structural validity of a value against a schema descriptor: every
    required key is present and every described key that is present holds
    a value of the described type.  Ranges are no part of it. *)
Fixpoint conforms (sch : Schema) (v : JsValue) {struct sch} : bool :=
  match sch, v with
  | NUMBER, JNumber _ _ => true
  | STRING, JString _ => true
  | ARRAY items, JArray vs => forallb (conforms items) vs
  | OBJECT properties required, JObject fields =>
      forallb (fun k => match get (lit k) fields with
                        | Some _ => true
                        | None => false
                        end) required
      && (fix described (ps : list (string * Schema)) : bool :=
            match ps with
            | [] => true
            | (k, s) :: r =>
                match get (lit k) fields with
                | Some v' => conforms s v'
                | None => true
                end && described r
            end) properties
  | _, _ => false
  end.

(** Some required key, at the top or nested, is absent from the value. *)
Fixpoint missing_required (sch : Schema) (v : JsValue) {struct sch} : bool :=
  match sch, v with
  | ARRAY items, JArray vs => existsb (missing_required items) vs
  | OBJECT properties required, JObject fields =>
      existsb (fun k => match get (lit k) fields with
                        | Some _ => false
                        | None => true
                        end) required
      || (fix described (ps : list (string * Schema)) : bool :=
            match ps with
            | [] => false
            | (k, s) :: r =>
                match get (lit k) fields with
                | Some v' => missing_required s v'
                | None => false
                end || described r
            end) properties
  | _, _ => false
  end.

(** The paths to the required leaves of a schema: a required property of
    primitive or list-of-primitive type, followed into nested objects and
    into the first entry of a list of objects. *)
Fixpoint leaf_paths (sch : Schema) : list (list Step) :=
  match sch with
  | NUMBER => [[]]
  | STRING => [[]]
  | ARRAY items =>
      match items with
      | OBJECT _ _ => map (cons (Idx 0)) (leaf_paths items)
      | _ => [[]]
      end
  | OBJECT properties required =>
      (fix described (ps : list (string * Schema)) : list (list Step) :=
         match ps with
         | [] => []
         | (k, s) :: r =>
             (if existsb (String.eqb k) required
              then map (cons (Key k)) (leaf_paths s)
              else [])
             ++ described r
         end) properties
  end.

(** The failure taxonomy of the pipeline. *)
Inductive AnalysisErrorKind : Type :=
| TransportFailure
| EmptyResponse
| MalformedResponse
| SchemaViolation.

(** The kind of a failed run of [analyzeResume], read off the calls the
    run made before its [catch] block logged the cause: the generation
    call rejected; it settled and nothing was handed to the parser; the
    parser was called and threw.  The service has no later stage. *)
Definition failure_kind (run : list Event) : option AnalysisErrorKind :=
  match run with
  | [EvGenerateContent _ (Abrupt _); EvConsoleError _ _] =>
      Some TransportFailure
  | [EvGenerateContent _ (Normal _); EvConsoleError _ _] =>
      Some EmptyResponse
  | [EvGenerateContent _ (Normal _); EvJSONParse _ (Abrupt _);
     EvConsoleError _ _] =>
      Some MalformedResponse
  | _ => None
  end.

(** The error every failed run of the service throws. *)
Definition analysis_failed : JsThrown :=
  new_Error "Failed to analyze resume. Please try again.".

Definition message_of (e : JsThrown) : js_string :=
  match e with
  | JsError _ message => message
  | JsNonError _ => []
  end.

(** The prompt texts handed to the generation call along a trace. *)
Definition sent_prompts (t : Trace) : list js_string :=
  flat_map (fun ev =>
    match ev with
    | EvGenerateContent req _ =>
        flat_map (fun c => map text (parts c)) (contents req)
    | _ => []
    end) t.

Definition generate_calls (t : Trace) : nat :=
  List.length (filter (fun ev => match ev with
                                 | EvGenerateContent _ _ => true
                                 | _ => false
                                 end) t).

Definition parse_calls (t : Trace) : nat :=
  List.length (filter (fun ev => match ev with
                                 | EvJSONParse _ _ => true
                                 | _ => false
                                 end) t).

(** The part of the prompt in front of the experience level. *)
Definition prompt_up_to_level (resumeText targetRole : js_string)
  : js_string :=
  Service.prompt_before_resume ++ Service.truncatedText resumeText
  ++ Service.prompt_before_role ++ targetRole
  ++ Service.prompt_before_level.

End Contract.

(* ===================================================================== *)
(** ** A concrete engine and sample responses *)
(* ===================================================================== *)

Module Engine.

(** [JSON.parse] of the runtime: the grammar of [Json.parse], with the
    rejection delivered as a thrown [SyntaxError] (the wording of its
    message is the engine's own). *)
Definition JSON_parse (text : js_string) : Completion JsValue :=
  match Json.parse text with
  | Some v => Normal v
  | None => Abrupt (JsError (lit "SyntaxError") (lit "Unexpected token in JSON"))
  end.

(** A generation call that settles with the given body. *)
Definition responds (body : js_string)
  : GenAI.GenerateContentParameters -> Completion GenAI.GenerateContentResponse :=
  fun _ => Normal {| GenAI.response_text := Some body |}.

(** A generation call that rejects, as on a network failure. *)
Definition rejects (e : JsThrown)
  : GenAI.GenerateContentParameters -> Completion GenAI.GenerateContentResponse :=
  fun _ => Abrupt e.

End Engine.

Module Sample.

(** JSON text written with apostrophes for the double quotes. *)
Definition json (s : string) : js_string :=
  map (fun c => if N.eqb c 39 then 34%N else c) (lit s).

(** A response with every required field; the score and the first day are
    outside their expected ranges. *)
Definition complete_body : js_string :=
  json ("{'overallScore':150,"
     ++ "'grammarImprovements':{'mistakes':['teh'],"
     ++ "'corrections':[{'original':'teh','improved':'the'}]},"
     ++ "'atsOptimization':{'missingKeywords':['SQL'],'formattingIssues':[],"
     ++ "'sectionOrderImprovements':'Put skills first'},"
     ++ "'skillGapAnalysis':{'missingOrWeakSkills':['Docker'],"
     ++ "'suggestions':['Learn Docker']},"
     ++ "'sectionFeedback':{'professionalSummary':'ok','skills':'ok',"
     ++ "'experience':'ok','education':'ok'},"
     ++ "'improvedSummary':'Engineer with a record of shipping.',"
     ++ "'sevenDayActionPlan':[{'day':9,'task':'Rewrite the summary'}]}")%string.

(** The same response with [improvedSummary] removed. *)
Definition body_without_improvedSummary : js_string :=
  json ("{'overallScore':150,"
     ++ "'grammarImprovements':{'mistakes':['teh'],"
     ++ "'corrections':[{'original':'teh','improved':'the'}]},"
     ++ "'atsOptimization':{'missingKeywords':['SQL'],'formattingIssues':[],"
     ++ "'sectionOrderImprovements':'Put skills first'},"
     ++ "'skillGapAnalysis':{'missingOrWeakSkills':['Docker'],"
     ++ "'suggestions':['Learn Docker']},"
     ++ "'sectionFeedback':{'professionalSummary':'ok','skills':'ok',"
     ++ "'experience':'ok','education':'ok'},"
     ++ "'sevenDayActionPlan':[{'day':9,'task':'Rewrite the summary'}]}")%string.

(** The same response with the nested [task] of the first plan entry
    removed. *)
Definition body_without_task : js_string :=
  json ("{'overallScore':150,"
     ++ "'grammarImprovements':{'mistakes':['teh'],"
     ++ "'corrections':[{'original':'teh','improved':'the'}]},"
     ++ "'atsOptimization':{'missingKeywords':['SQL'],'formattingIssues':[],"
     ++ "'sectionOrderImprovements':'Put skills first'},"
     ++ "'skillGapAnalysis':{'missingOrWeakSkills':['Docker'],"
     ++ "'suggestions':['Learn Docker']},"
     ++ "'sectionFeedback':{'professionalSummary':'ok','skills':'ok',"
     ++ "'experience':'ok','education':'ok'},"
     ++ "'improvedSummary':'Engineer with a record of shipping.',"
     ++ "'sevenDayActionPlan':[{'day':9}]}")%string.

Definition resume : js_string := lit "Jane Doe. Built and ran data pipelines.".
Definition role : js_string := lit "Data Engineer".
Definition level : js_string := lit "Junior".

Definition parsed (body : js_string) : JsValue :=
  match Json.parse body with
  | Some v => v
  | None => JNull
  end.

End Sample.

(* ===================================================================== *)
(** ** src/App.tsx: the other handlers and what the page shows *)
(* ===================================================================== *)

Module Page.

Import App.

Definition setResumeText (s : js_string) : M World unit :=
  update (fun a =>
    {| view := view a; resumeText := s; targetRole := targetRole a;
       experienceLevel := experienceLevel a; isAnalyzing := isAnalyzing a;
       result := result a; error := error a |}).

(** [reset], the handler of the Reset button of the results page. *)
Definition reset : M World unit :=
  setResumeText [] ;;
  setResult None ;;
  setError None ;;
  setView home.

(** A dropped file as the handler uses it: its MIME [type], and the string
    that [FileReader.readAsText] delivers to [onload] ([None] when the read
    fails, in which case [onload] is never called). *)
Record File := {
  file_type : js_string;
  file_text : option js_string
}.

Definition pdf_note : js_string :=
  lit ("Note: PDF analysis is currently optimized for text-based documents. "
       ++ "For best results, ensure your PDF is not a scanned image.").

(** [onDrop]: the synchronous part.  It looks at [acceptedFiles[0]] only,
    flags a PDF, and starts the read; the result is the file whose read
    was started, if any. *)
Definition onDrop (acceptedFiles : list File) : M World (option File) :=
  match acceptedFiles with
  | [] => ret None
  | file :: _ =>
      (if JsString.eqb (file_type file) (lit "application/pdf")
       then setError (Some pdf_note)
       else ret tt) ;;
      ret (Some file)
  end.

(** [reader.onload]: the text read becomes the resume text. *)
Definition reader_onload (text : js_string) : M World unit :=
  setResumeText text.

(** A drop followed by the completion of the read it started. *)
Definition drop_and_load (acceptedFiles : list File) : M World unit :=
  file <- onDrop acceptedFiles ;;
  match file with
  | Some f =>
      match file_text f with
      | Some text => reader_onload text
      | None => ret tt
      end
  | None => ret tt
  end.

(** Does the decimal [mantissa * 10 ^ exponent] round to zero as a
    binary64 (round to nearest, ties to even)?  It does when it is zero or
    at most 2^-1075 in magnitude, half the least subnormal.  (For a
    literal of more than 20 significant digits the language lets an engine
    zero the digits past the 20th before rounding; that latitude is not
    represented.) *)
Definition rounds_to_zero (mantissa exponent : Z) : bool :=
  if (mantissa =? 0)%Z then true
  else if (0 <=? exponent)%Z then false
  else (Z.abs mantissa * 2 ^ 1075 <=? 10 ^ (- exponent))%Z.

(** [ToBoolean] on a parsed value. *)
Definition ToBoolean (v : JsValue) : bool :=
  match v with
  | JNull => false
  | JBool b => b
  | JNumber m e => negb (rounds_to_zero m e)
  | JString s => truthy s
  | JArray _ => true
  | JObject _ => true
  end.

(** The test [if (result)] of [renderHome]. *)
Definition result_truthy (r : option JsValue) : bool :=
  match r with
  | None => false
  | Some v => ToBoolean v
  end.

(** The markup of the page body, by the branch that produced it. *)
Inductive Panel : Type :=
| ResultsPanel (report : JsValue)
| DropzonePanel
| FormPanel
| HowItWorksPanel
| AtsGuidePanel
| PricingPanel.

(** What evaluating a render function gives: the markup it returns, or a
    [TypeError] thrown on the way (the only exception the expressions of
    [renderHome] can raise on parsed JSON). *)
Inductive Rendered (A : Type) : Type :=
| Built (a : A)
| ThrowsTypeError.
Arguments Built {A} a.
Arguments ThrowsTypeError {A}.

Definition and_then {A B} (m : Rendered A) (k : A -> Rendered B)
  : Rendered B :=
  match m with
  | Built a => k a
  | ThrowsTypeError => ThrowsTypeError
  end.

(** [base.k] for one of the keys the results page reads (none of them is
    defined by a built-in prototype): a [TypeError] on [undefined] and
    [null], the own property of an object, [undefined] on anything else.
    [None] stands for [undefined]. *)
Definition member (k : string) (base : option JsValue)
  : Rendered (option JsValue) :=
  match base with
  | None => ThrowsTypeError
  | Some JNull => ThrowsTypeError
  | Some v => Built (field k v)
  end.

(** [base.length]: the number of items of an array, of code units of a
    string, the own property of an object, [undefined] on a number or a
    boolean. *)
Definition member_length (base : option JsValue)
  : Rendered (option JsValue) :=
  match base with
  | None => ThrowsTypeError
  | Some JNull => ThrowsTypeError
  | Some (JArray items) =>
      Built (Some (JNumber (Z.of_nat (List.length items)) 0))
  | Some (JString s) => Built (Some (JNumber (Z.of_nat (List.length s)) 0))
  | Some (JObject fields) => Built (get (lit "length") fields)
  | Some _ => Built None
  end.

(** Does [ToPrimitive] (and so [ToString] and the operands of [+])
    complete on the value?  A plain object converts through the inherited
    [toString] unless an own property of that name, which parsed JSON can
    only fill with something not callable, hides it; an array joins the
    conversions of its items. *)
Fixpoint toPrimitive_completes (v : JsValue) : bool :=
  match v with
  | JObject fields =>
      match get (lit "toString") fields with
      | Some _ => false
      | None => true
      end
  | JArray items => forallb toPrimitive_completes items
  | _ => true
  end.

Definition toPrimitive (o : option JsValue) : Rendered unit :=
  match o with
  | None => Built tt
  | Some v => if toPrimitive_completes v then Built tt else ThrowsTypeError
  end.

Fixpoint for_each {A} (callback : A -> Rendered unit) (items : list A)
  : Rendered unit :=
  match items with
  | [] => Built tt
  | x :: r => and_then (callback x) (fun _ => for_each callback r)
  end.

(** [base.map(callback)]: only an array has a callable [map]. *)
Definition call_map (base : option JsValue)
  (callback : JsValue -> Rendered unit) : Rendered unit :=
  match base with
  | Some (JArray items) => for_each callback items
  | _ => ThrowsTypeError
  end.

(** The expressions of the results branch of [renderHome] that can throw,
    in the order of the markup (source lines in the margin).  Reads of a
    property of [result] itself cannot throw, [result] being truthy. *)
Definition renderResults (result : JsValue) : Rendered unit :=
  (* 198 *)
  and_then (member "overallScore" (Some result)) (fun score =>
  and_then (toPrimitive score) (fun _ =>
  (* 213 *)
  and_then (member "grammarImprovements" (Some result)) (fun grammar =>
  and_then (member "mistakes" grammar) (fun mistakes =>
  and_then (member_length mistakes) (fun n1 =>
  and_then (member "skillGapAnalysis" (Some result)) (fun gap =>
  and_then (member "missingOrWeakSkills" gap) (fun weak =>
  and_then (member_length weak) (fun n2 =>
  and_then (toPrimitive n1) (fun _ =>
  and_then (toPrimitive n2) (fun _ =>
  (* 238-241 *)
  and_then (member "corrections" grammar) (fun corrections =>
  and_then (call_map corrections (fun item =>
              and_then (member "original" (Some item)) (fun _ =>
              and_then (member "improved" (Some item)) (fun _ =>
              Built tt)))) (fun _ =>
  (* 255, 260 *)
  and_then (member "atsOptimization" (Some result)) (fun ats =>
  and_then (member "missingKeywords" ats) (fun keywords =>
  and_then (call_map keywords (fun _ => Built tt)) (fun _ =>
  and_then (member "sectionOrderImprovements" ats) (fun _ =>
  (* 272, 276 *)
  and_then (member "sectionFeedback" (Some result)) (fun feedback =>
  and_then (member "experience" feedback) (fun _ =>
  and_then (member "skills" feedback) (fun _ =>
  (* 290, 298 *)
  and_then (call_map weak (fun _ => Built tt)) (fun _ =>
  and_then (member "suggestions" gap) (fun suggestions =>
  and_then (call_map suggestions (fun _ => Built tt)) (fun _ =>
  (* 315-318 *)
  and_then (member "sevenDayActionPlan" (Some result)) (fun plan =>
  call_map plan (fun step =>
    and_then (member "day" (Some step)) (fun _ =>
    and_then (member "task" (Some step)) (fun _ =>
    Built tt)))))))))))))))))))))))))).

(** [renderHome] as a function call: with a truthy [result] it evaluates
    the results markup, which throws where [renderResults] does; else it
    returns the drop zone while there is no resume text, else the form
    with the analyse button.  What React does with the returned markup is
    outside this function. *)
Definition renderHome (a : AppState) : Rendered Panel :=
  match result a with
  | Some v =>
      if ToBoolean v
      then and_then (renderResults v) (fun _ => Built (ResultsPanel v))
      else if negb (truthy (resumeText a)) then Built DropzonePanel
           else Built FormPanel
  | None =>
      if negb (truthy (resumeText a)) then Built DropzonePanel
      else Built FormPanel
  end.

(** The body of [<main>]: one page per [view]. *)
Definition render (a : AppState) : Rendered Panel :=
  match view a with
  | home => renderHome a
  | how_it_works => Built HowItWorksPanel
  | ats_guide => Built AtsGuidePanel
  | pricing => Built PricingPanel
  end.

(** The error banner [{error && ...}]: it sits in the branch of
    [renderHome] without results. *)
Definition errorBanner (a : AppState) : option js_string :=
  match view a with
  | home =>
      if result_truthy (result a) then None
      else match error a with
           | Some msg => if truthy msg then Some msg else None
           | None => None
           end
  | _ => None
  end.

(** The [disabled] attribute of the analyse button. *)
Definition analyzeDisabled (a : AppState) : bool :=
  (isAnalyzing a
   || negb (truthy (trim (resumeText a)))
   || negb (truthy (trim (targetRole a))))%bool.

(** The [console.error] entries of a trace. *)
Definition error_logs (t : Trace) : list (js_string * JsThrown) :=
  flat_map (fun ev =>
    match ev with
    | EvConsoleError label e => [(label, e)]
    | _ => []
    end) t.

(** The scroll timers of a trace. *)
Definition timers (t : Trace) : list (Z * js_string) :=
  flat_map (fun ev =>
    match ev with
    | EvSetTimeout ms id => [(ms, id)]
    | _ => []
    end) t.

(** A string of white space only (the empty string included). *)
Definition blank (s : js_string) : bool := forallb isWhiteSpace s.

Definition validation_message : js_string :=
  lit "Please provide both resume text and target job role.".

Definition failed_message : js_string :=
  lit "Failed to analyze resume. Please try again.".

Definition fallback_message : js_string :=
  lit "An unexpected error occurred during analysis.".

End Page.

(* ===================================================================== *)
(** ** Properties *)
(* ===================================================================== *)

Import GenAI Service Contract.

Arguments lit : simpl never.
Arguments request : simpl never.
Arguments prompt : simpl never.
Arguments new_Error : simpl never.

(** *** Strings *)

Lemma slice_prefix (s : js_string) (n : Z) :
  (0 <= n)%Z -> slice s 0 n = firstn (Z.to_nat n) s.
Proof.
  intros Hn. unfold slice, clamp_index.
  destruct (Z.ltb_spec n 0) as [Hneg | _]; [lia |].
  change (0 <? 0)%Z with false. cbv iota.
  rewrite (Z.min_l 0) by lia.
  change (Z.to_nat 0) with O. rewrite skipn_O.
  rewrite Z.sub_0_r, Z.max_l by lia.
  destruct (Z.le_ge_cases n (Z.of_nat (List.length s))) as [Hle | Hge].
  - rewrite Z.min_l by lia. reflexivity.
  - rewrite Z.min_r by lia. rewrite Nat2Z.id.
    rewrite firstn_all. symmetry. apply firstn_all2. lia.
Qed.

Lemma truncatedText_firstn (resumeText : js_string) :
  truncatedText resumeText = firstn (Z.to_nat 15000) resumeText.
Proof. unfold truncatedText. apply slice_prefix. lia. Qed.

Lemma truncatedText_idempotent (resumeText : js_string) :
  truncatedText (truncatedText resumeText) = truncatedText resumeText.
Proof.
  rewrite !truncatedText_firstn, firstn_firstn, Nat.min_id. reflexivity.
Qed.

Lemma truthy_nonempty (s : js_string) : truthy s = true <-> s <> [].
Proof. destruct s; simpl; split; intros; congruence. Qed.

(** *** The runs of [analyzeResume] *)

Section Runs.

Variable generateContent :
  GenerateContentParameters -> Completion GenerateContentResponse.
Variable JSON_parse : js_string -> Completion JsValue.

Ltac run_step :=
  unfold analyzeResume, try_catch, bind, ai_models_generateContent,
    JSON_parse_call, console_error, emit, settle, throw, log; simpl.

Lemma run_rejected resumeText targetRole experienceLevel t e :
  generateContent (request resumeText targetRole experienceLevel) = Abrupt e ->
  analyzeResume generateContent JSON_parse
    resumeText targetRole experienceLevel t =
    (Abrupt analysis_failed,
     t ++ [EvGenerateContent (request resumeText targetRole experienceLevel)
             (Abrupt e);
           EvConsoleError (lit "Resume Analysis Error:") e]).
Proof.
  intros Hg. run_step. rewrite Hg. rewrite <- app_assoc. reflexivity.
Qed.

Lemma run_empty resumeText targetRole experienceLevel t resp :
  generateContent (request resumeText targetRole experienceLevel) = Normal resp ->
  response_text resp = None \/ response_text resp = Some [] ->
  analyzeResume generateContent JSON_parse
    resumeText targetRole experienceLevel t =
    (Abrupt analysis_failed,
     t ++ [EvGenerateContent (request resumeText targetRole experienceLevel)
             (Normal resp);
           EvConsoleError (lit "Resume Analysis Error:")
             (new_Error "Empty AI response")]).
Proof.
  intros Hg Htext. run_step. rewrite Hg.
  destruct Htext as [-> | ->]; simpl; rewrite <- app_assoc; reflexivity.
Qed.

Lemma run_parsed resumeText targetRole experienceLevel t resp text v :
  generateContent (request resumeText targetRole experienceLevel) = Normal resp ->
  response_text resp = Some text ->
  text <> [] ->
  JSON_parse text = Normal v ->
  analyzeResume generateContent JSON_parse
    resumeText targetRole experienceLevel t =
    (Normal v,
     t ++ [EvGenerateContent (request resumeText targetRole experienceLevel)
             (Normal resp);
           EvJSONParse text (Normal v)]).
Proof.
  intros Hg Htext Hne Hp. run_step. rewrite Hg, Htext.
  destruct text as [| c r]; [congruence |]. simpl.
  rewrite Hp. rewrite <- app_assoc. reflexivity.
Qed.

Lemma run_unparseable resumeText targetRole experienceLevel t resp text e :
  generateContent (request resumeText targetRole experienceLevel) = Normal resp ->
  response_text resp = Some text ->
  text <> [] ->
  JSON_parse text = Abrupt e ->
  analyzeResume generateContent JSON_parse
    resumeText targetRole experienceLevel t =
    (Abrupt analysis_failed,
     t ++ [EvGenerateContent (request resumeText targetRole experienceLevel)
             (Normal resp);
           EvJSONParse text (Abrupt e);
           EvConsoleError (lit "Resume Analysis Error:") e]).
Proof.
  intros Hg Htext Hne Hp. run_step. rewrite Hg, Htext.
  destruct text as [| c r]; [congruence |]. simpl.
  rewrite Hp. rewrite <- !app_assoc. reflexivity.
Qed.

(** Every run falls under one of the four cases above. *)
Lemma run_cases resumeText targetRole experienceLevel :
  let req := request resumeText targetRole experienceLevel in
  (exists e, generateContent req = Abrupt e)
  \/ (exists resp, generateContent req = Normal resp
       /\ (response_text resp = None \/ response_text resp = Some []))
  \/ (exists resp text v, generateContent req = Normal resp
       /\ response_text resp = Some text /\ text <> []
       /\ JSON_parse text = Normal v)
  \/ (exists resp text e, generateContent req = Normal resp
       /\ response_text resp = Some text /\ text <> []
       /\ JSON_parse text = Abrupt e).
Proof.
  intros req.
  destruct (generateContent req) as [resp | e] eqn:Hg.
  - destruct (response_text resp) as [[| c r] |] eqn:Ht.
    + right; left. exists resp. auto.
    + destruct (JSON_parse (c :: r)) as [v | e] eqn:Hp.
      * right; right; left. exists resp, (c :: r), v.
        repeat split; auto. discriminate.
      * right; right; right. exists resp, (c :: r), e.
        repeat split; auto. discriminate.
    + right; left. exists resp. auto.
  - left. exists e. reflexivity.
Qed.

End Runs.

(** *** What a run sends and how often it calls out *)

Lemma sent_prompts_app (t u : Trace) :
  sent_prompts (t ++ u) = sent_prompts t ++ sent_prompts u.
Proof. unfold sent_prompts. apply flat_map_app. Qed.

Lemma generate_calls_app (t u : Trace) :
  generate_calls (t ++ u) = (generate_calls t + generate_calls u)%nat.
Proof. unfold generate_calls. rewrite filter_app, length_app. reflexivity. Qed.

Lemma parse_calls_app (t u : Trace) :
  parse_calls (t ++ u) = (parse_calls t + parse_calls u)%nat.
Proof. unfold parse_calls. rewrite filter_app, length_app. reflexivity. Qed.

(** Every run opens with the generation call on the built request. *)
Lemma run_opens_with_generateContent
  generateContent JSON_parse resumeText targetRole experienceLevel t :
  exists rest,
    snd (analyzeResume generateContent JSON_parse
           resumeText targetRole experienceLevel t) =
    t ++ EvGenerateContent (request resumeText targetRole experienceLevel)
           (generateContent (request resumeText targetRole experienceLevel))
         :: rest
    /\ sent_prompts rest = []
    /\ generate_calls rest = O.
Proof.
  destruct (run_cases generateContent JSON_parse
              resumeText targetRole experienceLevel)
    as [(e & Hg) | [(resp & Hg & Ht) | [(resp & text & v & Hg & Ht & Hne & Hp)
       | (resp & text & e & Hg & Ht & Hne & Hp)]]].
  - rewrite (run_rejected _ _ _ _ _ t Hg), Hg. eexists; simpl; eauto.
  - rewrite (run_empty _ _ _ _ _ t Hg Ht), Hg. eexists; simpl; eauto.
  - rewrite (run_parsed _ _ _ _ _ t Hg Ht Hne Hp), Hg. eexists; simpl; eauto.
  - rewrite (run_unparseable _ _ _ _ _ t Hg Ht Hne Hp), Hg.
    eexists; simpl; eauto.
Qed.

Lemma run_sends_one_prompt
  generateContent JSON_parse resumeText targetRole experienceLevel t :
  sent_prompts (snd (analyzeResume generateContent JSON_parse
                       resumeText targetRole experienceLevel t)) =
  sent_prompts t ++ [prompt resumeText targetRole experienceLevel].
Proof.
  destruct (run_opens_with_generateContent generateContent JSON_parse
              resumeText targetRole experienceLevel t)
    as (rest & -> & Hrest & _).
  rewrite sent_prompts_app. f_equal.
  change (sent_prompts (?ev :: rest)) with
    (prompt resumeText targetRole experienceLevel :: sent_prompts rest).
  rewrite Hrest. reflexivity.
Qed.

Lemma run_calls_generateContent_once
  generateContent JSON_parse resumeText targetRole experienceLevel t :
  generate_calls (snd (analyzeResume generateContent JSON_parse
                         resumeText targetRole experienceLevel t)) =
  S (generate_calls t).
Proof.
  destruct (run_opens_with_generateContent generateContent JSON_parse
              resumeText targetRole experienceLevel t)
    as (rest & -> & _ & Hrest).
  rewrite generate_calls_app.
  change (generate_calls (?ev :: rest)) with (S (generate_calls rest)).
  rewrite Hrest. lia.
Qed.

(** The request depends on the resume only through its truncation. *)
Lemma request_of_truncated resumeText targetRole experienceLevel :
  request (truncatedText resumeText) targetRole experienceLevel =
  request resumeText targetRole experienceLevel.
Proof.
  unfold request, prompt. rewrite truncatedText_idempotent. reflexivity.
Qed.

(** The schema has sixteen required leaves, and deleting any one of them
    from the complete sample response is seen by [missing_required], while
    the complete response itself lacks none. *)
Lemma every_leaf_removal_is_a_missing_field :
  List.length (leaf_paths responseSchema) = 16%nat
  /\ missing_required responseSchema (Sample.parsed Sample.complete_body)
     = false
  /\ forallb (fun p =>
               missing_required responseSchema
                 (remove_at p (Sample.parsed Sample.complete_body))
               && negb (conforms responseSchema
                          (remove_at p (Sample.parsed Sample.complete_body))))
       (leaf_paths responseSchema) = true
  /\ remove_at [Key "improvedSummary"] (Sample.parsed Sample.complete_body)
     = Sample.parsed Sample.body_without_improvedSummary
  /\ remove_at [Key "sevenDayActionPlan"; Idx 0; Key "task"]
       (Sample.parsed Sample.complete_body)
     = Sample.parsed Sample.body_without_task.
Proof. repeat split; vm_compute; reflexivity. Qed.

(** The JSON grammar has no empty text. *)
Lemma JSON_parse_rejects_empty_text :
  exists e, Engine.JSON_parse [] = Abrupt e.
Proof. eexists. reflexivity. Qed.

(* ===================================================================== *)
(** ** The response side: what is returned as a report *)
(* ===================================================================== *)

(** C1 (as the service behaves).  The service validates nothing after
    parsing: when the body of a settled generation call is non-empty and
    [JSON.parse] accepts it, the parsed value is returned as the result even
    though a required field of the report is missing from it.  The run logs
    nothing, throws nothing, and has no failure kind. *)
Theorem missing_field_response_is_returned
  generateContent JSON_parse resumeText targetRole experienceLevel t
  resp text v :
  generateContent (request resumeText targetRole experienceLevel) = Normal resp ->
  response_text resp = Some text ->
  text <> [] ->
  JSON_parse text = Normal v ->
  missing_required responseSchema v = true ->
  analyzeResume generateContent JSON_parse
    resumeText targetRole experienceLevel t =
    (Normal v,
     t ++ [EvGenerateContent (request resumeText targetRole experienceLevel)
             (Normal resp);
           EvJSONParse text (Normal v)])
  /\ failure_kind
       [EvGenerateContent (request resumeText targetRole experienceLevel)
          (Normal resp);
        EvJSONParse text (Normal v)] = None.
Proof.
  intros Hg Ht Hne Hp _. split.
  - apply run_parsed; assumption.
  - reflexivity.
Qed.

Lemma missing_field_response_is_returned_witness :
  analyzeResume (Engine.responds Sample.body_without_task) Engine.JSON_parse
    Sample.resume Sample.role Sample.level [] =
    (Normal (Sample.parsed Sample.body_without_task),
     [] ++ [EvGenerateContent
              (request Sample.resume Sample.role Sample.level)
              (Normal {| response_text := Some Sample.body_without_task |});
            EvJSONParse Sample.body_without_task
              (Normal (Sample.parsed Sample.body_without_task))])
  /\ failure_kind
       [EvGenerateContent (request Sample.resume Sample.role Sample.level)
          (Normal {| response_text := Some Sample.body_without_task |});
        EvJSONParse Sample.body_without_task
          (Normal (Sample.parsed Sample.body_without_task))] = None.
Proof.
  apply (@missing_field_response_is_returned
           (Engine.responds Sample.body_without_task) Engine.JSON_parse
           Sample.resume Sample.role Sample.level []
           {| response_text := Some Sample.body_without_task |}
           Sample.body_without_task
           (Sample.parsed Sample.body_without_task)).
  - reflexivity.
  - reflexivity.
  - vm_compute. discriminate.
  - vm_compute. reflexivity.
  - vm_compute. reflexivity.
Defined.

(** C1 (as stated, refuted).  A response that lacks the required
    [improvedSummary] parses, fails the required-field check of the schema,
    and is nevertheless the successful result of the run: no error of any
    kind is produced. *)
Lemma missing_field_response_not_rejected :
  Json.parse Sample.body_without_improvedSummary
    = Some (Sample.parsed Sample.body_without_improvedSummary)
  /\ field "improvedSummary"
       (Sample.parsed Sample.body_without_improvedSummary) = None
  /\ missing_required responseSchema
       (Sample.parsed Sample.body_without_improvedSummary) = true
  /\ fst (analyzeResume
            (Engine.responds Sample.body_without_improvedSummary)
            Engine.JSON_parse Sample.resume Sample.role Sample.level [])
     = Normal (Sample.parsed Sample.body_without_improvedSummary)
  /\ failure_kind
       (snd (analyzeResume
               (Engine.responds Sample.body_without_improvedSummary)
               Engine.JSON_parse Sample.resume Sample.role Sample.level []))
     <> Some SchemaViolation.
Proof.
  repeat split; try (vm_compute; reflexivity).
  vm_compute. discriminate.
Qed.

(** C2.  When the body of a settled generation call is non-empty, parses,
    and the parsed value has every required field with a value of the
    described type, the run returns exactly the parsed value: nothing is
    clamped, rounded or rebuilt.  Ranges play no part, so a score of 150 or
    a day of 9 comes back as it was parsed. *)
Theorem complete_response_is_returned_unchanged
  generateContent JSON_parse resumeText targetRole experienceLevel t
  resp text v :
  generateContent (request resumeText targetRole experienceLevel) = Normal resp ->
  response_text resp = Some text ->
  text <> [] ->
  JSON_parse text = Normal v ->
  conforms responseSchema v = true ->
  exists report,
    fst (analyzeResume generateContent JSON_parse
           resumeText targetRole experienceLevel t) = Normal report
    /\ report = v
    /\ forall p, at_path p report = at_path p v.
Proof.
  intros Hg Ht Hne Hp _.
  rewrite (run_parsed _ _ _ _ _ t Hg Ht Hne Hp). exists v. auto.
Qed.

Lemma complete_response_is_returned_unchanged_witness :
  conforms responseSchema (Sample.parsed Sample.complete_body) = true
  /\ at_path [Key "overallScore"] (Sample.parsed Sample.complete_body)
     = Some (JNumber 150 0)
  /\ at_path [Key "sevenDayActionPlan"; Idx 0; Key "day"]
       (Sample.parsed Sample.complete_body)
     = Some (JNumber 9 0)
  /\ fst (analyzeResume (Engine.responds Sample.complete_body)
            Engine.JSON_parse Sample.resume Sample.role Sample.level [])
     = Normal (Sample.parsed Sample.complete_body).
Proof.
  split; [vm_compute; reflexivity |].
  split; [vm_compute; reflexivity |].
  split; [vm_compute; reflexivity |].
  destruct (@complete_response_is_returned_unchanged
              (Engine.responds Sample.complete_body) Engine.JSON_parse
              Sample.resume Sample.role Sample.level []
              {| response_text := Some Sample.complete_body |}
              Sample.complete_body (Sample.parsed Sample.complete_body))
    as (report & Hrun & Hsame & _).
  - reflexivity.
  - reflexivity.
  - vm_compute. discriminate.
  - vm_compute. reflexivity.
  - vm_compute. reflexivity.
  - rewrite Hrun, Hsame. reflexivity.
Defined.

(* ===================================================================== *)
(** ** The request side: truncation and the prompt *)
(* ===================================================================== *)

(** C3.  The resume text placed in the request is the first 15000 code
    units of the input when the input is longer, and the input itself when
    it has 15000 code units or fewer.  No trace of the cut is left: the run
    on the long input is the run on its truncation, event for event. *)
Theorem truncation_boundary (resumeText : js_string) :
  ((15000 < Z.of_nat (List.length resumeText))%Z ->
     truncatedText resumeText = firstn (Z.to_nat 15000) resumeText
     /\ Z.of_nat (List.length (truncatedText resumeText)) = 15000%Z)
  /\ ((Z.of_nat (List.length resumeText) <= 15000)%Z ->
        truncatedText resumeText = resumeText)
  /\ (forall targetRole experienceLevel,
        contents (request resumeText targetRole experienceLevel) =
        [ {| parts :=
               [ {| text :=
                      prompt_before_resume ++ truncatedText resumeText
                      ++ prompt_before_role ++ targetRole
                      ++ prompt_before_level ++ experienceLevel
                      ++ prompt_after_level |} ] |} ])
  /\ (forall generateContent JSON_parse targetRole experienceLevel t,
        analyzeResume generateContent JSON_parse
          resumeText targetRole experienceLevel t =
        analyzeResume generateContent JSON_parse
          (truncatedText resumeText) targetRole experienceLevel t).
Proof.
  repeat split.
  - apply truncatedText_firstn.
  - rewrite truncatedText_firstn, length_firstn. lia.
  - intros Hle. rewrite truncatedText_firstn. apply firstn_all2. lia.
  - intros. unfold analyzeResume. rewrite request_of_truncated. reflexivity.
Qed.

Lemma truncation_boundary_witness :
  truncatedText (repeat 120%N (Z.to_nat 15001)) = repeat 120%N (Z.to_nat 15000)
  /\ truncatedText (repeat 120%N (Z.to_nat 15000)) = repeat 120%N (Z.to_nat 15000).
Proof.
  split.
  - destruct (truncation_boundary (repeat 120%N (Z.to_nat 15001)))
      as (Hlong & _).
    destruct Hlong as (-> & _).
    + rewrite repeat_length. lia.
    + vm_compute. reflexivity.
  - destruct (truncation_boundary (repeat 120%N (Z.to_nat 15000)))
      as (_ & Hshort & _).
    apply Hshort. rewrite repeat_length. lia.
Defined.

(** C4.  The prompt of a run is a function of the three inputs alone: two
    runs on the same resume text, role and level hand the generation call
    the same prompt, code unit for code unit, whatever the backend and the
    parser do in either run and whatever happened before. *)
Theorem prompt_construction_deterministic
  resumeText targetRole experienceLevel
  generateContent1 JSON_parse1 generateContent2 JSON_parse2 :
  sent_prompts (snd (analyzeResume generateContent1 JSON_parse1
                       resumeText targetRole experienceLevel []))
  = sent_prompts (snd (analyzeResume generateContent2 JSON_parse2
                         resumeText targetRole experienceLevel []))
  /\ sent_prompts (snd (analyzeResume generateContent1 JSON_parse1
                          resumeText targetRole experienceLevel []))
     = [prompt resumeText targetRole experienceLevel].
Proof.
  rewrite !run_sends_one_prompt. split; reflexivity.
Qed.

(** C9.  The experience level is an arbitrary string to the service: it is
    spliced into the prompt as given, between two pieces of text that do
    not depend on it; for every level the run makes the generation call
    and the one prompt it hands over is that text with the level inside;
    and the level bears on the outcome only through what the backend
    answers. *)
Theorem experienceLevel_is_not_checked
  generateContent JSON_parse resumeText targetRole
  (experienceLevel : js_string) t :
  prompt resumeText targetRole experienceLevel =
    prompt_up_to_level resumeText targetRole
    ++ experienceLevel ++ prompt_after_level
  /\ sent_prompts
       (snd (analyzeResume generateContent JSON_parse
               resumeText targetRole experienceLevel t))
     = sent_prompts t
       ++ [prompt_up_to_level resumeText targetRole
           ++ experienceLevel ++ prompt_after_level]
  /\ (exists before,
        prompt_up_to_level resumeText targetRole
        = before ++ LF ++ lit "    Experience Level: ")
  /\ (exists rest,
        snd (analyzeResume generateContent JSON_parse
               resumeText targetRole experienceLevel t) =
        t ++ EvGenerateContent
               (request resumeText targetRole experienceLevel)
               (generateContent (request resumeText targetRole experienceLevel))
             :: rest)
  /\ (forall otherLevel,
        generateContent (request resumeText targetRole experienceLevel) =
        generateContent (request resumeText targetRole otherLevel) ->
        fst (analyzeResume generateContent JSON_parse
               resumeText targetRole experienceLevel t) =
        fst (analyzeResume generateContent JSON_parse
               resumeText targetRole otherLevel t)).
Proof.
  assert (Hprompt : prompt resumeText targetRole experienceLevel =
                    prompt_up_to_level resumeText targetRole
                    ++ experienceLevel ++ prompt_after_level).
  { unfold prompt, prompt_up_to_level. rewrite <- !app_assoc. reflexivity. }
  split; [exact Hprompt |].
  split; [rewrite run_sends_one_prompt, Hprompt; reflexivity |].
  split.
  { exists (prompt_before_resume ++ truncatedText resumeText
            ++ prompt_before_role ++ targetRole).
    unfold prompt_up_to_level, prompt_before_level.
    rewrite <- !app_assoc. reflexivity. }
  split.
  - destruct (run_opens_with_generateContent generateContent JSON_parse
                resumeText targetRole experienceLevel t)
      as (rest & Hrun & _).
    exists rest. exact Hrun.
  - intros otherLevel Hsame.
    unfold analyzeResume, try_catch, bind, ai_models_generateContent,
      JSON_parse_call, console_error, emit, settle, throw; simpl.
    rewrite Hsame.
    destruct (generateContent (request resumeText targetRole otherLevel))
      as [resp | e]; simpl; [| reflexivity].
    destruct (response_text resp) as [[| c r] |]; simpl; try reflexivity.
    destruct (JSON_parse (c :: r)); reflexivity.
Qed.

Lemma experienceLevel_is_not_checked_witness :
  existsb (fun p => includes p (lit "Experience Level: Wizard (7th circle)"))
    (sent_prompts
       (snd (analyzeResume (Engine.responds Sample.complete_body)
               Engine.JSON_parse Sample.resume Sample.role
               (lit "Wizard (7th circle)") []))) = true
  /\ fst (analyzeResume (Engine.responds Sample.complete_body)
            Engine.JSON_parse Sample.resume Sample.role
            (lit "Wizard (7th circle)") [])
     = fst (analyzeResume (Engine.responds Sample.complete_body)
              Engine.JSON_parse Sample.resume Sample.role (lit "Junior") []).
Proof.
  destruct (experienceLevel_is_not_checked
              (Engine.responds Sample.complete_body) Engine.JSON_parse
              Sample.resume Sample.role (lit "Wizard (7th circle)") [])
    as (_ & Hsent & _ & _ & Hsame).
  split.
  - rewrite Hsent. vm_compute. reflexivity.
  - apply Hsame. reflexivity.
Defined.

(* ===================================================================== *)
(** ** The failure side *)
(* ===================================================================== *)

(** C5 (as the service behaves).  When the generation call settles with no
    text or with the empty string, the run fails as an empty response: the
    cause logged is [Error("Empty AI response")], nothing is parsed and no
    report is returned.  Any non-empty body, one made of white space only
    included, is not taken for empty: it is handed to [JSON.parse], and no
    run on it fails as an empty response. *)
Theorem empty_body_is_empty_response
  generateContent JSON_parse resumeText targetRole experienceLevel t resp :
  generateContent (request resumeText targetRole experienceLevel) = Normal resp ->
  (response_text resp = None \/ response_text resp = Some [] ->
     analyzeResume generateContent JSON_parse
       resumeText targetRole experienceLevel t =
       (Abrupt analysis_failed,
        t ++ [EvGenerateContent
                (request resumeText targetRole experienceLevel) (Normal resp);
              EvConsoleError (lit "Resume Analysis Error:")
                (new_Error "Empty AI response")])
     /\ failure_kind
          [EvGenerateContent
             (request resumeText targetRole experienceLevel) (Normal resp);
           EvConsoleError (lit "Resume Analysis Error:")
             (new_Error "Empty AI response")] = Some EmptyResponse)
  /\ (forall text,
        response_text resp = Some text -> text <> [] ->
        exists rest,
          snd (analyzeResume generateContent JSON_parse
                 resumeText targetRole experienceLevel t) =
          t ++ EvGenerateContent
                 (request resumeText targetRole experienceLevel) (Normal resp)
               :: EvJSONParse text (JSON_parse text) :: rest
          /\ failure_kind
               (EvGenerateContent
                  (request resumeText targetRole experienceLevel) (Normal resp)
                :: EvJSONParse text (JSON_parse text) :: rest)
             <> Some EmptyResponse).
Proof.
  intros Hg. split.
  - intros Hempty. split; [apply run_empty; assumption | reflexivity].
  - intros text Ht Hne.
    destruct (JSON_parse text) as [v | e] eqn:Hp.
    + rewrite (run_parsed _ _ _ _ _ t Hg Ht Hne Hp).
      exists []. split; [reflexivity | discriminate].
    + rewrite (run_unparseable _ _ _ _ _ t Hg Ht Hne Hp).
      eexists. split; [reflexivity | discriminate].
Qed.

Lemma empty_body_is_empty_response_witness :
  analyzeResume (Engine.responds []) Engine.JSON_parse
    Sample.resume Sample.role Sample.level [] =
    (Abrupt analysis_failed,
     [] ++ [EvGenerateContent
              (request Sample.resume Sample.role Sample.level)
              (Normal {| response_text := Some [] |});
            EvConsoleError (lit "Resume Analysis Error:")
              (new_Error "Empty AI response")]).
Proof.
  apply (@empty_body_is_empty_response
           (Engine.responds []) Engine.JSON_parse
           Sample.resume Sample.role Sample.level []
           {| response_text := Some [] |}).
  - reflexivity.
  - right. reflexivity.
Defined.

(** C5 (as stated, refuted).  A body of three spaces is empty after
    trimming, yet the run does not fail as an empty response: the body goes
    to [JSON.parse], whose [SyntaxError] is the cause logged. *)
Lemma whitespace_body_is_not_empty_response :
  trim (lit "   ") = []
  /\ snd (analyzeResume (Engine.responds (lit "   ")) Engine.JSON_parse
            Sample.resume Sample.role Sample.level []) =
     [EvGenerateContent (request Sample.resume Sample.role Sample.level)
        (Normal {| response_text := Some (lit "   ") |});
      EvJSONParse (lit "   ") (Engine.JSON_parse (lit "   "));
      EvConsoleError (lit "Resume Analysis Error:")
        (JsError (lit "SyntaxError") (lit "Unexpected token in JSON"))]
  /\ failure_kind
       (snd (analyzeResume (Engine.responds (lit "   ")) Engine.JSON_parse
               Sample.resume Sample.role Sample.level []))
     = Some MalformedResponse
  /\ failure_kind
       (snd (analyzeResume (Engine.responds (lit "   ")) Engine.JSON_parse
               Sample.resume Sample.role Sample.level []))
     <> Some EmptyResponse.
Proof.
  split; [reflexivity |].
  split; [reflexivity |].
  split; [reflexivity | discriminate].
Qed.

(** C6 (as the service behaves).  When the body is non-empty and
    [JSON.parse] throws, the run fails as a malformed response: the
    exception of the parser is logged under the label
    ["Resume Analysis Error:"], no report is returned, and the error
    thrown to the caller is the fixed [analysis_failed], whose message
    holds none of the body. *)
Theorem unparseable_body_is_malformed_response
  generateContent JSON_parse resumeText targetRole experienceLevel t
  resp text e :
  generateContent (request resumeText targetRole experienceLevel) = Normal resp ->
  response_text resp = Some text ->
  text <> [] ->
  JSON_parse text = Abrupt e ->
  analyzeResume generateContent JSON_parse
    resumeText targetRole experienceLevel t =
    (Abrupt analysis_failed,
     t ++ [EvGenerateContent
             (request resumeText targetRole experienceLevel) (Normal resp);
           EvJSONParse text (Abrupt e);
           EvConsoleError (lit "Resume Analysis Error:") e])
  /\ failure_kind
       [EvGenerateContent
          (request resumeText targetRole experienceLevel) (Normal resp);
        EvJSONParse text (Abrupt e);
        EvConsoleError (lit "Resume Analysis Error:") e]
     = Some MalformedResponse
  /\ message_of analysis_failed
     = lit "Failed to analyze resume. Please try again.".
Proof.
  intros Hg Ht Hne Hp. split; [| split].
  - apply run_unparseable; assumption.
  - reflexivity.
  - reflexivity.
Qed.

Lemma unparseable_body_is_malformed_response_witness :
  fst (analyzeResume (Engine.responds (lit "Sorry, I cannot help."))
         Engine.JSON_parse Sample.resume Sample.role Sample.level [])
  = Abrupt analysis_failed.
Proof.
  destruct (@unparseable_body_is_malformed_response
              (Engine.responds (lit "Sorry, I cannot help."))
              Engine.JSON_parse Sample.resume Sample.role Sample.level []
              {| response_text := Some (lit "Sorry, I cannot help.") |}
              (lit "Sorry, I cannot help.")
              (JsError (lit "SyntaxError") (lit "Unexpected token in JSON")))
    as (Hrun & _).
  - reflexivity.
  - reflexivity.
  - vm_compute. discriminate.
  - vm_compute. reflexivity.
  - rewrite Hrun. reflexivity.
Defined.

(** C6 (as stated, refuted).  The error returned for an unparseable body
    does not carry the raw text: its message is the fixed sentence, the
    body does not occur in it, and two different unparseable bodies yield
    the very same error. *)
Lemma malformed_error_carries_no_raw_text :
  fst (analyzeResume (Engine.responds (lit "Sorry, I cannot help."))
         Engine.JSON_parse Sample.resume Sample.role Sample.level [])
  = Abrupt (JsError (lit "Error")
              (lit "Failed to analyze resume. Please try again."))
  /\ includes (lit "Failed to analyze resume. Please try again.")
       (lit "Sorry, I cannot help.") = false
  /\ fst (analyzeResume (Engine.responds (Sample.json "{'overallScore': 80"))
            Engine.JSON_parse Sample.resume Sample.role Sample.level [])
     = fst (analyzeResume (Engine.responds (lit "Sorry, I cannot help."))
              Engine.JSON_parse Sample.resume Sample.role Sample.level [])
  /\ JsString.eqb (Sample.json "{'overallScore': 80")
       (lit "Sorry, I cannot help.")
     = false.
Proof.
  repeat split; vm_compute; reflexivity.
Qed.

(** *** The handler around the service *)

Lemma handleAnalyze_blank generateContent JSON_parse a w :
  trim (App.resumeText a) = [] \/ trim (App.targetRole a) = [] ->
  App.handleAnalyze generateContent JSON_parse a w =
    App.setError
      (Some (lit "Please provide both resume text and target job role.")) w.
Proof.
  intros Hblank. unfold App.handleAnalyze.
  destruct Hblank as [-> | ->]; simpl.
  - reflexivity.
  - rewrite orb_true_r. reflexivity.
Qed.

(** With both inputs present the handler makes one call of the service, on
    the inputs of its render, and adds at most the scroll timer to what
    that call left in the trace. *)
Lemma handleAnalyze_trace generateContent JSON_parse a w :
  trim (App.resumeText a) <> [] -> trim (App.targetRole a) <> [] ->
  let after :=
    snd (analyzeResume generateContent JSON_parse (App.resumeText a)
           (App.targetRole a) (App.experienceLevel a) (snd w)) in
  snd (snd (App.handleAnalyze generateContent JSON_parse a w)) = after
  \/ snd (snd (App.handleAnalyze generateContent JSON_parse a w)) =
     after ++ [EvSetTimeout 500 (lit "machine-results")].
Proof.
  intros Hr Hj after. subst after. unfold App.handleAnalyze.
  apply truthy_nonempty in Hr. apply truthy_nonempty in Hj.
  rewrite Hr, Hj. simpl.
  unfold try_finally, try_catch, bind, App.service, App.setIsAnalyzing,
    App.setError, App.setResult, App.setView, App.update,
    App.setTimeout_scrollIntoView, emit, log. simpl.
  destruct (analyzeResume generateContent JSON_parse (App.resumeText a)
              (App.targetRole a) (App.experienceLevel a) (snd w))
    as [[v | e] t'] eqn:Hrun; simpl.
  - right. reflexivity.
  - left. reflexivity.
Qed.

Lemma handleAnalyze_calls_generateContent_at_most_once
  generateContent JSON_parse a w :
  (generate_calls (snd (snd (App.handleAnalyze generateContent JSON_parse a w)))
   <= S (generate_calls (snd w)))%nat.
Proof.
  destruct (trim (App.resumeText a)) as [| c r] eqn:Hr.
  { rewrite handleAnalyze_blank by (left; exact Hr). simpl. lia. }
  destruct (trim (App.targetRole a)) as [| c' r'] eqn:Hj.
  { rewrite handleAnalyze_blank by (right; exact Hj). simpl. lia. }
  destruct (@handleAnalyze_trace generateContent JSON_parse a w) as [-> | ->].
  - rewrite Hr. discriminate.
  - rewrite Hj. discriminate.
  - rewrite run_calls_generateContent_once. lia.
  - rewrite generate_calls_app, run_calls_generateContent_once.
    change (generate_calls [EvSetTimeout 500 (lit "machine-results")])
      with O.
    lia.
Qed.

(** C7 (as the service behaves).  When the generation call rejects, the
    run fails as a transport failure in this sense: the rejection is the
    cause logged under ["Resume Analysis Error:"], [JSON.parse] is not
    called, and no report is returned.  What is thrown to the caller is
    the fixed [Error] with the message ["Failed to analyze resume. Please
    try again."], which names no kind.  Every run of the service, failing
    or not, makes exactly one generation call, and the handler of the
    interface makes at most one per click: nothing is retried. *)
Theorem transport_failure_is_not_retried
  generateContent JSON_parse resumeText targetRole experienceLevel t :
  (forall e,
     generateContent (request resumeText targetRole experienceLevel) = Abrupt e ->
     analyzeResume generateContent JSON_parse
       resumeText targetRole experienceLevel t =
       (Abrupt (JsError (lit "Error")
                  (lit "Failed to analyze resume. Please try again.")),
        t ++ [EvGenerateContent
                (request resumeText targetRole experienceLevel) (Abrupt e);
              EvConsoleError (lit "Resume Analysis Error:") e])
     /\ Page.error_logs
          (snd (analyzeResume generateContent JSON_parse
                  resumeText targetRole experienceLevel t))
        = Page.error_logs t ++ [(lit "Resume Analysis Error:", e)]
     /\ failure_kind
          [EvGenerateContent
             (request resumeText targetRole experienceLevel) (Abrupt e);
           EvConsoleError (lit "Resume Analysis Error:") e]
        = Some TransportFailure
     /\ parse_calls
          (snd (analyzeResume generateContent JSON_parse
                  resumeText targetRole experienceLevel t))
        = parse_calls t)
  /\ generate_calls
       (snd (analyzeResume generateContent JSON_parse
               resumeText targetRole experienceLevel t))
     = S (generate_calls t)
  /\ (forall a w,
        (generate_calls
           (snd (snd (App.handleAnalyze generateContent JSON_parse a w)))
         <= S (generate_calls (snd w)))%nat).
Proof.
  split; [| split].
  - intros e Hg. rewrite (run_rejected _ _ _ _ _ t Hg).
    split; [reflexivity |].
    split; [simpl snd; unfold Page.error_logs; rewrite flat_map_app;
            reflexivity |].
    split; [reflexivity |].
    simpl snd. rewrite parse_calls_app.
    unfold parse_calls at 2. simpl. lia.
  - apply run_calls_generateContent_once.
  - intros a w. apply handleAnalyze_calls_generateContent_at_most_once.
Qed.

Lemma transport_failure_is_not_retried_witness :
  analyzeResume (Engine.rejects (new_Error "fetch failed")) Engine.JSON_parse
    Sample.resume Sample.role Sample.level [] =
    (Abrupt (JsError (lit "Error")
               (lit "Failed to analyze resume. Please try again.")),
     [] ++ [EvGenerateContent
              (request Sample.resume Sample.role Sample.level)
              (Abrupt (new_Error "fetch failed"));
            EvConsoleError (lit "Resume Analysis Error:")
              (new_Error "fetch failed")]).
Proof.
  destruct (transport_failure_is_not_retried
              (Engine.rejects (new_Error "fetch failed")) Engine.JSON_parse
              Sample.resume Sample.role Sample.level [])
    as (Hfail & _).
  destruct (Hfail (new_Error "fetch failed")) as (Hrun & _).
  - reflexivity.
  - exact Hrun.
Defined.

(** C7 (as stated, refuted).  The error returned when the generation call
    rejects is of no kind: it is the [Error] with the fixed message, the
    very value returned for an empty body and for an unparseable body, and
    the rejection does not occur in it. *)
Lemma transport_failure_error_has_no_kind :
  fst (analyzeResume (Engine.rejects (new_Error "fetch failed"))
         Engine.JSON_parse Sample.resume Sample.role Sample.level [])
  = Abrupt (JsError (lit "Error")
              (lit "Failed to analyze resume. Please try again."))
  /\ fst (analyzeResume (Engine.rejects (new_Error "fetch failed"))
            Engine.JSON_parse Sample.resume Sample.role Sample.level [])
     = fst (analyzeResume (Engine.responds [])
              Engine.JSON_parse Sample.resume Sample.role Sample.level [])
  /\ fst (analyzeResume (Engine.rejects (new_Error "fetch failed"))
            Engine.JSON_parse Sample.resume Sample.role Sample.level [])
     = fst (analyzeResume (Engine.responds (lit "Sorry, I cannot help."))
              Engine.JSON_parse Sample.resume Sample.role Sample.level [])
  /\ includes (lit "Failed to analyze resume. Please try again.")
       (lit "fetch failed") = false.
Proof.
  repeat split; vm_compute; reflexivity.
Qed.

(** C8.  When the resume text or the target role is empty after trimming,
    a click sets the validation message and changes nothing else: the
    trace is left as it was, whereas any call of the service would have
    extended it. *)
Theorem blank_input_never_reaches_service
  generateContent JSON_parse (a : App.AppState) (t : Trace) :
  trim (App.resumeText a) = [] \/ trim (App.targetRole a) = [] ->
  exists a',
    App.click generateContent JSON_parse (a, t) = (Normal tt, (a', t))
    /\ App.error a'
       = Some (lit "Please provide both resume text and target job role.")
    /\ App.result a' = App.result a
    /\ App.isAnalyzing a' = App.isAnalyzing a
    /\ App.view a' = App.view a
    /\ forall resumeText targetRole experienceLevel,
         snd (analyzeResume generateContent JSON_parse
                resumeText targetRole experienceLevel t) <> t.
Proof.
  intros Hblank. unfold App.click. simpl fst.
  rewrite handleAnalyze_blank by exact Hblank.
  eexists. split; [reflexivity |]. simpl.
  repeat split. intros resumeText targetRole experienceLevel Hsame.
  pose proof (run_calls_generateContent_once generateContent JSON_parse
                resumeText targetRole experienceLevel t) as Hcalls.
  rewrite Hsame in Hcalls. lia.
Qed.

Lemma blank_input_never_reaches_service_witness :
  exists a',
    App.click (Engine.responds Sample.complete_body) Engine.JSON_parse
      ({| App.view := App.home; App.resumeText := lit "  ";
          App.targetRole := Sample.role; App.experienceLevel := Sample.level;
          App.isAnalyzing := false; App.result := None;
          App.error := None |}, [])
    = (Normal tt, (a', []))
    /\ App.error a'
       = Some (lit "Please provide both resume text and target job role.").
Proof.
  destruct (@blank_input_never_reaches_service
              (Engine.responds Sample.complete_body) Engine.JSON_parse
              {| App.view := App.home; App.resumeText := lit "  ";
                 App.targetRole := Sample.role;
                 App.experienceLevel := Sample.level;
                 App.isAnalyzing := false; App.result := None;
                 App.error := None |} [])
    as (a' & Hclick & Herror & _).
  - left. reflexivity.
  - exists a'. split; assumption.
Defined.

(** C10.  Whatever makes a run fail, the error thrown to the caller is the
    same: an instance of [Error] whose message is ["Failed to analyze
    resume. Please try again."].  A rejected generation call, an empty
    body and an unparseable body each end in it, so the thrown error tells
    the caller nothing about the cause. *)
Theorem every_failure_throws_the_same_error
  generateContent JSON_parse resumeText targetRole experienceLevel t :
  (forall e,
     fst (analyzeResume generateContent JSON_parse
            resumeText targetRole experienceLevel t) = Abrupt e ->
     e = JsError (lit "Error")
           (lit "Failed to analyze resume. Please try again.")
     /\ message_of e = lit "Failed to analyze resume. Please try again."
     /\ instanceof_Error e = true)
  /\ (forall cause,
        generateContent (request resumeText targetRole experienceLevel)
        = Abrupt cause ->
        fst (analyzeResume generateContent JSON_parse
               resumeText targetRole experienceLevel t)
        = Abrupt (JsError (lit "Error")
                    (lit "Failed to analyze resume. Please try again.")))
  /\ (forall resp,
        generateContent (request resumeText targetRole experienceLevel)
        = Normal resp ->
        response_text resp = None \/ response_text resp = Some [] ->
        fst (analyzeResume generateContent JSON_parse
               resumeText targetRole experienceLevel t)
        = Abrupt (JsError (lit "Error")
                    (lit "Failed to analyze resume. Please try again.")))
  /\ (forall resp text cause,
        generateContent (request resumeText targetRole experienceLevel)
        = Normal resp ->
        response_text resp = Some text -> text <> [] ->
        JSON_parse text = Abrupt cause ->
        fst (analyzeResume generateContent JSON_parse
               resumeText targetRole experienceLevel t)
        = Abrupt (JsError (lit "Error")
                    (lit "Failed to analyze resume. Please try again."))).
Proof.
  split; [| split; [| split]].
  - intros e Hfail.
    assert (He : e = JsError (lit "Error")
                       (lit "Failed to analyze resume. Please try again.")).
    { destruct (run_cases generateContent JSON_parse
                  resumeText targetRole experienceLevel)
        as [(c & Hg) | [(resp & Hg & Ht)
           | [(resp & text & v & Hg & Ht & Hne & Hp)
             | (resp & text & c & Hg & Ht & Hne & Hp)]]].
      - rewrite (run_rejected _ _ _ _ _ t Hg) in Hfail.
        inversion Hfail. reflexivity.
      - rewrite (run_empty _ _ _ _ _ t Hg Ht) in Hfail.
        inversion Hfail. reflexivity.
      - rewrite (run_parsed _ _ _ _ _ t Hg Ht Hne Hp) in Hfail.
        discriminate.
      - rewrite (run_unparseable _ _ _ _ _ t Hg Ht Hne Hp) in Hfail.
        inversion Hfail. reflexivity. }
    subst e. repeat split.
  - intros cause Hg. rewrite (run_rejected _ _ _ _ _ t Hg). reflexivity.
  - intros resp Hg Ht. rewrite (run_empty _ _ _ _ _ t Hg Ht). reflexivity.
  - intros resp text cause Hg Ht Hne Hp.
    rewrite (run_unparseable _ _ _ _ _ t Hg Ht Hne Hp). reflexivity.
Qed.

Lemma every_failure_throws_the_same_error_witness :
  fst (analyzeResume (Engine.rejects (new_Error "fetch failed"))
         Engine.JSON_parse Sample.resume Sample.role Sample.level [])
  = Abrupt (JsError (lit "Error")
              (lit "Failed to analyze resume. Please try again."))
  /\ fst (analyzeResume (Engine.responds [])
            Engine.JSON_parse Sample.resume Sample.role Sample.level [])
     = Abrupt (JsError (lit "Error")
                 (lit "Failed to analyze resume. Please try again."))
  /\ (forall e,
        fst (analyzeResume (Engine.responds (lit "Sorry, I cannot help."))
               Engine.JSON_parse Sample.resume Sample.role Sample.level [])
        = Abrupt e ->
        message_of e = lit "Failed to analyze resume. Please try again."
        /\ instanceof_Error e = true).
Proof.
  split; [| split].
  - destruct (every_failure_throws_the_same_error
                (Engine.rejects (new_Error "fetch failed")) Engine.JSON_parse
                Sample.resume Sample.role Sample.level [])
      as (_ & Hrejected & _).
    apply (Hrejected (new_Error "fetch failed")). reflexivity.
  - destruct (every_failure_throws_the_same_error
                (Engine.responds []) Engine.JSON_parse
                Sample.resume Sample.role Sample.level [])
      as (_ & _ & Hempty & _).
    apply (Hempty {| response_text := Some [] |}).
    + reflexivity.
    + right. reflexivity.
  - destruct (every_failure_throws_the_same_error
                (Engine.responds (lit "Sorry, I cannot help."))
                Engine.JSON_parse Sample.resume Sample.role Sample.level [])
      as (Hany & _).
    intros e Hfail. destruct (Hany e Hfail) as (_ & Hmsg & Hinst).
    split; assumption.
Defined.

(* ===================================================================== *)
(** ** Further properties of the service *)
(* ===================================================================== *)

Import Page.

(** *** Blank strings *)

Lemma trimStart_nil_iff (s : js_string) :
  trimStart s = [] <-> blank s = true.
Proof.
  unfold blank. induction s as [| c r IH]; simpl.
  - tauto.
  - destruct (isWhiteSpace c); simpl.
    + exact IH.
    + split; discriminate.
Qed.

Lemma trimStart_head (s : js_string) c r :
  trimStart s = c :: r -> isWhiteSpace c = false.
Proof.
  induction s as [| x s' IH]; simpl; [discriminate |].
  destruct (isWhiteSpace x) eqn:Hx.
  - exact IH.
  - intros Heq. injection Heq as -> _. exact Hx.
Qed.

Lemma blank_rev (s : js_string) : blank (rev s) = blank s.
Proof.
  unfold blank. destruct (forallb isWhiteSpace s) eqn:Hs.
  - rewrite forallb_forall in *. intros x Hx. apply Hs, in_rev, Hx.
  - destruct (forallb isWhiteSpace (rev s)) eqn:Hr; [| reflexivity].
    rewrite <- Hs. symmetry. rewrite forallb_forall in *.
    intros x Hx. apply Hr. rewrite <- in_rev. exact Hx.
Qed.

Lemma blank_app (s u : js_string) : blank (s ++ u) = (blank s && blank u)%bool.
Proof. apply forallb_app. Qed.

(** [trim] leaves nothing exactly of the strings made of white space. *)
Lemma trim_nil_iff (s : js_string) : trim s = [] <-> blank s = true.
Proof.
  unfold trim, trimEnd. split.
  - intros Htrim.
    assert (Hrev : trimStart (rev (trimStart s)) = []).
    { destruct (trimStart (rev (trimStart s))) as [| x l]; [reflexivity |].
      simpl in Htrim. destruct (rev l); discriminate. }
    apply trimStart_nil_iff in Hrev. rewrite blank_rev in Hrev.
    destruct (trimStart s) as [| c r] eqn:Hstart.
    + apply trimStart_nil_iff. exact Hstart.
    + apply trimStart_head in Hstart. unfold blank in Hrev. simpl in Hrev.
      rewrite Hstart in Hrev. discriminate.
  - intros Hblank. apply trimStart_nil_iff in Hblank. rewrite Hblank.
    reflexivity.
Qed.

Lemma trim_truthy_iff (s : js_string) :
  truthy (trim s) = negb (blank s).
Proof.
  destruct (blank s) eqn:Hb.
  - apply trim_nil_iff in Hb. rewrite Hb. reflexivity.
  - destruct (trim s) eqn:Ht; [| reflexivity].
    apply trim_nil_iff in Ht. congruence.
Qed.

(** *** The shapes of a run *)

Lemma error_logs_app (t u : Trace) :
  error_logs (t ++ u) = error_logs t ++ error_logs u.
Proof. unfold error_logs. apply flat_map_app. Qed.

Lemma timers_app (t u : Trace) : timers (t ++ u) = timers t ++ timers u.
Proof. unfold timers. apply flat_map_app. Qed.

(** X1.  A run of [analyzeResume] has one of exactly four shapes, fixed by
    what the generation call and the parser do: rejected call (logged,
    thrown), settled call without text (logged, thrown, parser not called),
    parsed body (returned, nothing logged), rejected body (logged,
    thrown). *)
Theorem every_run_has_one_of_four_shapes
  generateContent JSON_parse resumeText targetRole experienceLevel t :
  (exists e,
     generateContent (request resumeText targetRole experienceLevel) = Abrupt e
     /\ analyzeResume generateContent JSON_parse
          resumeText targetRole experienceLevel t =
        (Abrupt analysis_failed,
         t ++ [EvGenerateContent
                 (request resumeText targetRole experienceLevel) (Abrupt e);
               EvConsoleError (lit "Resume Analysis Error:") e]))
  \/ (exists resp,
        generateContent (request resumeText targetRole experienceLevel)
        = Normal resp
        /\ (response_text resp = None \/ response_text resp = Some [])
        /\ analyzeResume generateContent JSON_parse
             resumeText targetRole experienceLevel t =
           (Abrupt analysis_failed,
            t ++ [EvGenerateContent
                    (request resumeText targetRole experienceLevel)
                    (Normal resp);
                  EvConsoleError (lit "Resume Analysis Error:")
                    (new_Error "Empty AI response")]))
  \/ (exists resp text v,
        generateContent (request resumeText targetRole experienceLevel)
        = Normal resp
        /\ response_text resp = Some text /\ text <> []
        /\ JSON_parse text = Normal v
        /\ analyzeResume generateContent JSON_parse
             resumeText targetRole experienceLevel t =
           (Normal v,
            t ++ [EvGenerateContent
                    (request resumeText targetRole experienceLevel)
                    (Normal resp);
                  EvJSONParse text (Normal v)]))
  \/ (exists resp text e,
        generateContent (request resumeText targetRole experienceLevel)
        = Normal resp
        /\ response_text resp = Some text /\ text <> []
        /\ JSON_parse text = Abrupt e
        /\ analyzeResume generateContent JSON_parse
             resumeText targetRole experienceLevel t =
           (Abrupt analysis_failed,
            t ++ [EvGenerateContent
                    (request resumeText targetRole experienceLevel)
                    (Normal resp);
                  EvJSONParse text (Abrupt e);
                  EvConsoleError (lit "Resume Analysis Error:") e])).
Proof.
  destruct (run_cases generateContent JSON_parse
              resumeText targetRole experienceLevel)
    as [(e & Hg) | [(resp & Hg & Ht)
       | [(resp & text & v & Hg & Ht & Hne & Hp)
         | (resp & text & e & Hg & Ht & Hne & Hp)]]].
  - left. exists e. split; [exact Hg | apply run_rejected; exact Hg].
  - right; left. exists resp.
    split; [exact Hg | split; [exact Ht | apply run_empty; assumption]].
  - right; right; left. exists resp, text, v.
    repeat split; try assumption. apply run_parsed; assumption.
  - right; right; right. exists resp, text, e.
    repeat split; try assumption. apply run_unparseable; assumption.
Qed.

(** Shared by the statements below: a run that throws, throws
    [analysis_failed]. *)
Lemma run_abrupt_inv
  generateContent JSON_parse resumeText targetRole experienceLevel t e :
  fst (analyzeResume generateContent JSON_parse
         resumeText targetRole experienceLevel t) = Abrupt e ->
  e = analysis_failed.
Proof.
  intros Hfail.
  destruct (run_cases generateContent JSON_parse
              resumeText targetRole experienceLevel)
    as [(c & Hg) | [(resp & Hg & Ht)
       | [(resp & text & v & Hg & Ht & Hne & Hp)
         | (resp & text & c & Hg & Ht & Hne & Hp)]]].
  - rewrite (run_rejected _ _ _ _ _ t Hg) in Hfail. simpl in Hfail. congruence.
  - rewrite (run_empty _ _ _ _ _ t Hg Ht) in Hfail. simpl in Hfail. congruence.
  - rewrite (run_parsed _ _ _ _ _ t Hg Ht Hne Hp) in Hfail. discriminate.
  - rewrite (run_unparseable _ _ _ _ _ t Hg Ht Hne Hp) in Hfail.
    simpl in Hfail. congruence.
Qed.

(** X2.  A report is never made up: when a run returns a value, the
    generation call settled with a non-empty text and the value is what
    [JSON.parse] gave for that very text; the run logged nothing. *)
Theorem report_comes_from_backend
  generateContent JSON_parse resumeText targetRole experienceLevel t v :
  fst (analyzeResume generateContent JSON_parse
         resumeText targetRole experienceLevel t) = Normal v ->
  exists resp text,
    generateContent (request resumeText targetRole experienceLevel)
    = Normal resp
    /\ response_text resp = Some text
    /\ text <> []
    /\ JSON_parse text = Normal v
    /\ error_logs (snd (analyzeResume generateContent JSON_parse
                          resumeText targetRole experienceLevel t))
       = error_logs t.
Proof.
  intros Hok.
  destruct (run_cases generateContent JSON_parse
              resumeText targetRole experienceLevel)
    as [(c & Hg) | [(resp & Hg & Ht)
       | [(resp & text & v' & Hg & Ht & Hne & Hp)
         | (resp & text & c & Hg & Ht & Hne & Hp)]]].
  - rewrite (run_rejected _ _ _ _ _ t Hg) in Hok. discriminate.
  - rewrite (run_empty _ _ _ _ _ t Hg Ht) in Hok. discriminate.
  - rewrite (run_parsed _ _ _ _ _ t Hg Ht Hne Hp) in Hok |- *.
    simpl in Hok. injection Hok as ->.
    exists resp, text. repeat split; try assumption.
    simpl. rewrite error_logs_app. simpl. apply app_nil_r.
  - rewrite (run_unparseable _ _ _ _ _ t Hg Ht Hne Hp) in Hok. discriminate.
Qed.

Lemma report_comes_from_backend_witness :
  exists resp text,
    Engine.responds Sample.complete_body
      (request Sample.resume Sample.role Sample.level) = Normal resp
    /\ response_text resp = Some text
    /\ text <> []
    /\ Engine.JSON_parse text = Normal (Sample.parsed Sample.complete_body)
    /\ error_logs (snd (analyzeResume (Engine.responds Sample.complete_body)
                          Engine.JSON_parse
                          Sample.resume Sample.role Sample.level []))
       = error_logs [].
Proof.
  apply (@report_comes_from_backend
           (Engine.responds Sample.complete_body) Engine.JSON_parse
           Sample.resume Sample.role Sample.level []
           (Sample.parsed Sample.complete_body)).
  vm_compute. reflexivity.
Defined.

(** X3.  A failed run writes exactly one [console.error] entry, under the
    label ["Resume Analysis Error:"], and a successful run writes none. *)
Theorem failure_is_logged_once
  generateContent JSON_parse resumeText targetRole experienceLevel t :
  match fst (analyzeResume generateContent JSON_parse
               resumeText targetRole experienceLevel t) with
  | Normal _ =>
      error_logs (snd (analyzeResume generateContent JSON_parse
                         resumeText targetRole experienceLevel t))
      = error_logs t
  | Abrupt _ =>
      exists cause,
        error_logs (snd (analyzeResume generateContent JSON_parse
                           resumeText targetRole experienceLevel t))
        = error_logs t ++ [(lit "Resume Analysis Error:", cause)]
  end.
Proof.
  destruct (run_cases generateContent JSON_parse
              resumeText targetRole experienceLevel)
    as [(c & Hg) | [(resp & Hg & Ht)
       | [(resp & text & v' & Hg & Ht & Hne & Hp)
         | (resp & text & c & Hg & Ht & Hne & Hp)]]].
  - rewrite (run_rejected _ _ _ _ _ t Hg). simpl.
    exists c. rewrite error_logs_app. reflexivity.
  - rewrite (run_empty _ _ _ _ _ t Hg Ht). simpl.
    eexists. rewrite error_logs_app. reflexivity.
  - rewrite (run_parsed _ _ _ _ _ t Hg Ht Hne Hp). simpl.
    rewrite error_logs_app. simpl. apply app_nil_r.
  - rewrite (run_unparseable _ _ _ _ _ t Hg Ht Hne Hp). simpl.
    exists c. rewrite error_logs_app. reflexivity.
Qed.

(** X4.  [JSON.parse] is called at most once in a run, and it is called
    exactly when the generation call settled with a non-empty text. *)
Theorem parser_is_called_on_nonempty_text_only
  generateContent JSON_parse resumeText targetRole experienceLevel t :
  parse_calls (snd (analyzeResume generateContent JSON_parse
                      resumeText targetRole experienceLevel t))
  = (parse_calls t
     + match generateContent (request resumeText targetRole experienceLevel)
       with
       | Normal resp =>
           match response_text resp with
           | Some (_ :: _) => 1
           | _ => 0
           end
       | Abrupt _ => 0
       end)%nat.
Proof.
  destruct (run_cases generateContent JSON_parse
              resumeText targetRole experienceLevel)
    as [(c & Hg) | [(resp & Hg & Ht)
       | [(resp & text & v' & Hg & Ht & Hne & Hp)
         | (resp & text & c & Hg & Ht & Hne & Hp)]]].
  - rewrite (run_rejected _ _ _ _ _ t Hg), Hg. simpl.
    rewrite parse_calls_app. reflexivity.
  - rewrite (run_empty _ _ _ _ _ t Hg Ht), Hg. simpl.
    rewrite parse_calls_app. destruct Ht as [-> | ->]; reflexivity.
  - rewrite (run_parsed _ _ _ _ _ t Hg Ht Hne Hp), Hg, Ht. simpl.
    rewrite parse_calls_app. destruct text; [congruence | reflexivity].
  - rewrite (run_unparseable _ _ _ _ _ t Hg Ht Hne Hp), Hg, Ht. simpl.
    rewrite parse_calls_app. destruct text; [congruence | reflexivity].
Qed.

(** *** The size and the seams of the prompt *)

(** X5.  The prompt is 531 code units of template, plus the resume text up
    to 15000 code units, plus the whole of the role and of the level: only
    the resume is bounded. *)
Theorem prompt_length (resumeText targetRole experienceLevel : js_string) :
  Z.of_nat (List.length (prompt resumeText targetRole experienceLevel))
  = (531
     + Z.min (Z.of_nat (List.length resumeText)) 15000
     + Z.of_nat (List.length targetRole)
     + Z.of_nat (List.length experienceLevel))%Z.
Proof.
  unfold prompt. rewrite !length_app, truncatedText_firstn, length_firstn.
  change (List.length prompt_before_resume) with 203%nat.
  change (List.length prompt_before_role) with 22%nat.
  change (List.length prompt_before_level) with 23%nat.
  change (List.length prompt_after_level) with 283%nat.
  lia.
Qed.

(** X6.  The template does not mark where an input ends.  Text moved from
    the end of the resume to the front of the role, across the line
    ["Target Job Role: "], gives the same request as long as the resume
    stays within 15000 code units; likewise between role and level,
    without condition.  Different inputs are thus sent as one and the same
    request. *)
Theorem prompt_fields_are_not_delimited
  (resumeText moved targetRole experienceLevel : js_string) :
  ((Z.of_nat (List.length (resumeText ++ prompt_before_role ++ moved))
    <= 15000)%Z ->
   request (resumeText ++ prompt_before_role ++ moved)
     targetRole experienceLevel
   = request resumeText
       (moved ++ prompt_before_role ++ targetRole) experienceLevel)
  /\ request resumeText (targetRole ++ prompt_before_level ++ moved)
       experienceLevel
     = request resumeText targetRole
         (moved ++ prompt_before_level ++ experienceLevel).
Proof.
  split.
  - intros Hlen. unfold request, prompt.
    rewrite !truncatedText_firstn.
    rewrite (@firstn_all2 _ (Z.to_nat 15000)
               (resumeText ++ prompt_before_role ++ moved)) by lia.
    rewrite length_app in Hlen.
    rewrite (@firstn_all2 _ (Z.to_nat 15000) resumeText) by lia.
    rewrite <- !app_assoc. reflexivity.
  - unfold request, prompt. rewrite <- !app_assoc. reflexivity.
Qed.

Lemma prompt_fields_are_not_delimited_witness :
  request (lit "Jane Doe" ++ prompt_before_role ++ lit "Chief Executive")
    (lit "Intern") (lit "Junior")
  = request (lit "Jane Doe")
      (lit "Chief Executive" ++ prompt_before_role ++ lit "Intern")
      (lit "Junior").
Proof.
  apply (prompt_fields_are_not_delimited
           (lit "Jane Doe") (lit "Chief Executive") (lit "Intern")
           (lit "Junior")).
  vm_compute. discriminate.
Defined.

(* ===================================================================== *)
(** ** Further properties of the page *)
(* ===================================================================== *)

(** *** A click on the analyse button *)

Lemma validation_message_distinct :
  validation_message <> failed_message
  /\ fallback_message <> failed_message
  /\ fallback_message <> validation_message.
Proof. repeat split; vm_compute; discriminate. Qed.

Lemma click_blank generateContent JSON_parse a t :
  blank (App.resumeText a) = true \/ blank (App.targetRole a) = true ->
  App.click generateContent JSON_parse (a, t) =
    (Normal tt,
     ({| App.view := App.view a; App.resumeText := App.resumeText a;
         App.targetRole := App.targetRole a;
         App.experienceLevel := App.experienceLevel a;
         App.isAnalyzing := App.isAnalyzing a; App.result := App.result a;
         App.error := Some validation_message |}, t)).
Proof.
  intros Hblank. unfold App.click. simpl fst.
  rewrite handleAnalyze_blank; [reflexivity |].
  destruct Hblank as [H | H]; [left | right]; apply trim_nil_iff; exact H.
Qed.

(** With both inputs present, the click is the service call followed by
    the state updates of the branch the call ends in. *)
Lemma click_settled generateContent JSON_parse a t :
  blank (App.resumeText a) = false -> blank (App.targetRole a) = false ->
  App.click generateContent JSON_parse (a, t) =
    match analyzeResume generateContent JSON_parse (App.resumeText a)
            (App.targetRole a) (App.experienceLevel a) t with
    | (Normal v, t') =>
        (Normal tt,
         ({| App.view := App.home; App.resumeText := App.resumeText a;
             App.targetRole := App.targetRole a;
             App.experienceLevel := App.experienceLevel a;
             App.isAnalyzing := false; App.result := Some v;
             App.error := None |},
          t' ++ [EvSetTimeout 500 (lit "machine-results")]))
    | (Abrupt e, t') =>
        (Normal tt,
         ({| App.view := App.view a; App.resumeText := App.resumeText a;
             App.targetRole := App.targetRole a;
             App.experienceLevel := App.experienceLevel a;
             App.isAnalyzing := false; App.result := None;
             App.error :=
               Some (match e with
                     | JsError _ message => message
                     | JsNonError _ => fallback_message
                     end) |},
          t'))
    end.
Proof.
  intros Hr Hj. unfold App.click. cbn [fst]. unfold App.handleAnalyze.
  rewrite !trim_truthy_iff, Hr, Hj. simpl.
  unfold try_finally, try_catch, bind, App.service, App.setIsAnalyzing,
    App.setError, App.setResult, App.setView, App.update,
    App.setTimeout_scrollIntoView, emit, log. simpl.
  destruct (analyzeResume generateContent JSON_parse (App.resumeText a)
              (App.targetRole a) (App.experienceLevel a) t)
    as [[v | e] t']; simpl; [reflexivity |].
  destruct e; reflexivity.
Qed.

(** X7.  The click is refused exactly for blank input: the validation
    message is what the click leaves as the error if and only if the
    resume text or the target role consists of white space only (or is
    empty). *)
Theorem validation_message_iff_blank generateContent JSON_parse a t :
  App.error (fst (snd (App.click generateContent JSON_parse (a, t))))
  = Some validation_message
  <-> (blank (App.resumeText a) = true \/ blank (App.targetRole a) = true).
Proof.
  split.
  - intros Herr.
    destruct (blank (App.resumeText a)) eqn:Hr; [left; reflexivity |].
    destruct (blank (App.targetRole a)) eqn:Hj; [right; reflexivity |].
    exfalso. rewrite (click_settled generateContent JSON_parse a t Hr Hj) in Herr.
    destruct (analyzeResume generateContent JSON_parse (App.resumeText a)
                (App.targetRole a) (App.experienceLevel a) t)
      as [[v | e] t'] eqn:Hrun; simpl in Herr; [discriminate |].
    assert (He : e = analysis_failed).
    { apply (@run_abrupt_inv generateContent JSON_parse (App.resumeText a)
               (App.targetRole a) (App.experienceLevel a) t).
      rewrite Hrun. reflexivity. }
    subst e. vm_compute in Herr. discriminate.
  - intros Hblank. rewrite (click_blank generateContent JSON_parse a t Hblank).
    reflexivity.
Qed.

Lemma validation_message_iff_blank_witness :
  App.error
    (fst (snd (App.click (Engine.responds Sample.complete_body)
                 Engine.JSON_parse
                 ({| App.view := App.home; App.resumeText := Sample.resume;
                     App.targetRole := [9%N; 32%N; 160%N; 10%N];
                     App.experienceLevel := Sample.level;
                     App.isAnalyzing := false; App.result := None;
                     App.error := None |}, []))))
  = Some validation_message.
Proof.
  apply (validation_message_iff_blank
           (Engine.responds Sample.complete_body) Engine.JSON_parse
           {| App.view := App.home; App.resumeText := Sample.resume;
              App.targetRole := [9%N; 32%N; 160%N; 10%N];
              App.experienceLevel := Sample.level;
              App.isAnalyzing := false; App.result := None;
              App.error := None |} []).
  right. reflexivity.
Defined.

(** X8.  The guard looks at the whole resume text, the request at its
    first 15000 code units.  A resume that opens with 15000 or more code
    units of white space and has real text after them passes the guard,
    the service is called, and the resume text it sends is blank. *)
Theorem guard_checks_untruncated_text
  generateContent JSON_parse a t (padding rest : js_string) :
  App.resumeText a = padding ++ rest ->
  blank padding = true ->
  (15000 <= Z.of_nat (List.length padding))%Z ->
  blank rest = false ->
  blank (App.targetRole a) = false ->
  generate_calls
    (snd (snd (App.click generateContent JSON_parse (a, t))))
  = S (generate_calls t)
  /\ blank (truncatedText (App.resumeText a)) = true.
Proof.
  intros Hsplit Hpad Hlen Hrest Hrole.
  assert (Hresume : blank (App.resumeText a) = false).
  { rewrite Hsplit, blank_app, Hrest. apply andb_false_r. }
  split.
  - rewrite (click_settled generateContent JSON_parse a t Hresume Hrole).
    pose proof (run_calls_generateContent_once generateContent JSON_parse
                  (App.resumeText a) (App.targetRole a)
                  (App.experienceLevel a) t) as Hcalls.
    destruct (analyzeResume generateContent JSON_parse (App.resumeText a)
                (App.targetRole a) (App.experienceLevel a) t)
      as [[v | e] t']; simpl in *.
    + rewrite generate_calls_app, Hcalls.
      change (generate_calls [EvSetTimeout 500 (lit "machine-results")])
        with O.
      lia.
    + exact Hcalls.
  - rewrite truncatedText_firstn, Hsplit.
    rewrite firstn_app.
    replace (Z.to_nat 15000 - List.length padding)%nat with O by lia.
    rewrite firstn_O, app_nil_r.
    unfold blank in *. rewrite forallb_forall in *.
    intros x Hx. apply Hpad.
    rewrite <- (firstn_skipn (Z.to_nat 15000) padding).
    apply in_or_app. left. exact Hx.
Qed.

Lemma guard_checks_untruncated_text_witness :
  generate_calls
    (snd (snd (App.click (Engine.responds Sample.complete_body)
                 Engine.JSON_parse
                 ({| App.view := App.home;
                     App.resumeText :=
                       repeat 32%N (Z.to_nat 15000) ++ Sample.resume;
                     App.targetRole := Sample.role;
                     App.experienceLevel := Sample.level;
                     App.isAnalyzing := false; App.result := None;
                     App.error := None |}, []))))
  = S (generate_calls [])
  /\ blank (truncatedText (repeat 32%N (Z.to_nat 15000) ++ Sample.resume))
     = true.
Proof.
  apply (@guard_checks_untruncated_text
           (Engine.responds Sample.complete_body) Engine.JSON_parse
           {| App.view := App.home;
              App.resumeText := repeat 32%N (Z.to_nat 15000) ++ Sample.resume;
              App.targetRole := Sample.role;
              App.experienceLevel := Sample.level;
              App.isAnalyzing := false; App.result := None;
              App.error := None |} []
           (repeat 32%N (Z.to_nat 15000)) Sample.resume).
  - reflexivity.
  - vm_compute. reflexivity.
  - rewrite repeat_length. lia.
  - vm_compute. reflexivity.
  - vm_compute. reflexivity.
Defined.

(** X9.  A successful analysis, from any view and over any earlier error
    or report: the parsed value becomes the result, the error is cleared,
    the view is home, the busy flag is off, the inputs are untouched, and
    one scroll to ["machine-results"] is scheduled after 500 ms. *)
Theorem successful_click
  generateContent JSON_parse a t resp text v :
  blank (App.resumeText a) = false ->
  blank (App.targetRole a) = false ->
  generateContent
    (request (App.resumeText a) (App.targetRole a) (App.experienceLevel a))
  = Normal resp ->
  response_text resp = Some text ->
  text <> [] ->
  JSON_parse text = Normal v ->
  App.click generateContent JSON_parse (a, t) =
    (Normal tt,
     ({| App.view := App.home; App.resumeText := App.resumeText a;
         App.targetRole := App.targetRole a;
         App.experienceLevel := App.experienceLevel a;
         App.isAnalyzing := false; App.result := Some v;
         App.error := None |},
      t ++ [EvGenerateContent
              (request (App.resumeText a) (App.targetRole a)
                 (App.experienceLevel a)) (Normal resp);
            EvJSONParse text (Normal v);
            EvSetTimeout 500 (lit "machine-results")])).
Proof.
  intros Hr Hj Hg Ht Hne Hp.
  rewrite (click_settled generateContent JSON_parse a t Hr Hj).
  rewrite (run_parsed _ _ _ _ _ t Hg Ht Hne Hp).
  rewrite <- app_assoc. reflexivity.
Qed.

Lemma successful_click_witness :
  App.result
    (fst (snd (App.click (Engine.responds Sample.complete_body)
                 Engine.JSON_parse
                 ({| App.view := App.pricing; App.resumeText := Sample.resume;
                     App.targetRole := Sample.role;
                     App.experienceLevel := Sample.level;
                     App.isAnalyzing := false; App.result := None;
                     App.error := Some pdf_note |}, []))))
  = Some (Sample.parsed Sample.complete_body).
Proof.
  refine (f_equal (fun r => App.result (fst (snd r)))
            (@successful_click
               (Engine.responds Sample.complete_body) Engine.JSON_parse
               {| App.view := App.pricing; App.resumeText := Sample.resume;
                  App.targetRole := Sample.role;
                  App.experienceLevel := Sample.level;
                  App.isAnalyzing := false; App.result := None;
                  App.error := Some pdf_note |} []
               {| response_text := Some Sample.complete_body |}
               Sample.complete_body (Sample.parsed Sample.complete_body)
               _ _ _ _ _ _)).
  - vm_compute. reflexivity.
  - vm_compute. reflexivity.
  - reflexivity.
  - reflexivity.
  - vm_compute. discriminate.
  - vm_compute. reflexivity.
Defined.

(** X10.  A failed analysis, whatever the cause: the error shown is the
    fixed sentence of the service, an earlier report is dropped, the busy
    flag is off, view and inputs stay, and no scroll is scheduled. *)
Theorem failed_click generateContent JSON_parse a t e :
  blank (App.resumeText a) = false ->
  blank (App.targetRole a) = false ->
  fst (analyzeResume generateContent JSON_parse (App.resumeText a)
         (App.targetRole a) (App.experienceLevel a) t) = Abrupt e ->
  App.click generateContent JSON_parse (a, t) =
    (Normal tt,
     ({| App.view := App.view a; App.resumeText := App.resumeText a;
         App.targetRole := App.targetRole a;
         App.experienceLevel := App.experienceLevel a;
         App.isAnalyzing := false; App.result := None;
         App.error := Some failed_message |},
      snd (analyzeResume generateContent JSON_parse (App.resumeText a)
             (App.targetRole a) (App.experienceLevel a) t)))
  /\ timers (snd (analyzeResume generateContent JSON_parse (App.resumeText a)
                    (App.targetRole a) (App.experienceLevel a) t))
     = timers t.
Proof.
  intros Hr Hj Hfail.
  pose proof (run_abrupt_inv _ _ _ _ _ _ Hfail) as ->.
  rewrite (click_settled generateContent JSON_parse a t Hr Hj).
  destruct (run_cases generateContent JSON_parse (App.resumeText a)
              (App.targetRole a) (App.experienceLevel a))
    as [(c & Hg) | [(resp & Hg & Ht)
       | [(resp & text & v' & Hg & Ht & Hne & Hp)
         | (resp & text & c & Hg & Ht & Hne & Hp)]]].
  - rewrite (run_rejected _ _ _ _ _ t Hg). simpl.
    split; [reflexivity |]. rewrite timers_app. simpl. apply app_nil_r.
  - rewrite (run_empty _ _ _ _ _ t Hg Ht). simpl.
    split; [reflexivity |]. rewrite timers_app. simpl. apply app_nil_r.
  - rewrite (run_parsed _ _ _ _ _ t Hg Ht Hne Hp) in Hfail. discriminate.
  - rewrite (run_unparseable _ _ _ _ _ t Hg Ht Hne Hp). simpl.
    split; [reflexivity |]. rewrite timers_app. simpl. apply app_nil_r.
Qed.

Lemma failed_click_witness :
  App.error
    (fst (snd (App.click (Engine.rejects (JsNonError (JString (lit "quota"))))
                 Engine.JSON_parse
                 ({| App.view := App.home; App.resumeText := Sample.resume;
                     App.targetRole := Sample.role;
                     App.experienceLevel := Sample.level;
                     App.isAnalyzing := false;
                     App.result := Some (Sample.parsed Sample.complete_body);
                     App.error := None |}, []))))
  = Some failed_message.
Proof.
  destruct (@failed_click
              (Engine.rejects (JsNonError (JString (lit "quota"))))
              Engine.JSON_parse
              {| App.view := App.home; App.resumeText := Sample.resume;
                 App.targetRole := Sample.role;
                 App.experienceLevel := Sample.level;
                 App.isAnalyzing := false;
                 App.result := Some (Sample.parsed Sample.complete_body);
                 App.error := None |} [] analysis_failed)
    as (Hclick & _).
  - vm_compute. reflexivity.
  - vm_compute. reflexivity.
  - reflexivity.
  - exact (f_equal (fun r => App.error (fst (snd r))) Hclick).
Defined.

(** X11.  Whatever the state, the backend and the parser, a click never
    throws, and the error it leaves is one of three: none (success), the
    validation message, or the fixed sentence of the service.  The cause
    of a failure and the fallback text ["An unexpected error occurred
    during analysis."] never reach the page. *)
Theorem click_error_is_one_of_three generateContent JSON_parse a t :
  fst (App.click generateContent JSON_parse (a, t)) = Normal tt
  /\ (App.error (fst (snd (App.click generateContent JSON_parse (a, t))))
      = None
      \/ App.error (fst (snd (App.click generateContent JSON_parse (a, t))))
         = Some validation_message
      \/ App.error (fst (snd (App.click generateContent JSON_parse (a, t))))
         = Some failed_message)
  /\ App.error (fst (snd (App.click generateContent JSON_parse (a, t))))
     <> Some fallback_message.
Proof.
  destruct (blank (App.resumeText a)) eqn:Hr.
  { rewrite (click_blank generateContent JSON_parse a t) by (left; exact Hr).
    simpl. repeat split; [right; left; reflexivity |].
    vm_compute. discriminate. }
  destruct (blank (App.targetRole a)) eqn:Hj.
  { rewrite (click_blank generateContent JSON_parse a t) by (right; exact Hj).
    simpl. repeat split; [right; left; reflexivity |].
    vm_compute. discriminate. }
  rewrite (click_settled generateContent JSON_parse a t Hr Hj).
  destruct (analyzeResume generateContent JSON_parse (App.resumeText a)
              (App.targetRole a) (App.experienceLevel a) t)
    as [[v | e] t'] eqn:Hrun; simpl.
  - repeat split; [left; reflexivity | discriminate].
  - assert (He : e = analysis_failed).
    { apply (@run_abrupt_inv generateContent JSON_parse (App.resumeText a)
               (App.targetRole a) (App.experienceLevel a) t).
      rewrite Hrun. reflexivity. }
    subst e. simpl. repeat split; [right; right; reflexivity |].
    vm_compute. discriminate.
Qed.

(** X12.  The busy flag: a click on non-blank input leaves [isAnalyzing]
    off whether the analysis succeeded or failed; a refused click leaves it
    as it was. *)
Theorem busy_flag_after_click generateContent JSON_parse a t :
  App.isAnalyzing (fst (snd (App.click generateContent JSON_parse (a, t))))
  = if (blank (App.resumeText a) || blank (App.targetRole a))%bool
    then App.isAnalyzing a
    else false.
Proof.
  destruct (blank (App.resumeText a)) eqn:Hr.
  { rewrite (click_blank generateContent JSON_parse a t) by (left; exact Hr).
    reflexivity. }
  destruct (blank (App.targetRole a)) eqn:Hj.
  { rewrite (click_blank generateContent JSON_parse a t) by (right; exact Hj).
    reflexivity. }
  rewrite (click_settled generateContent JSON_parse a t Hr Hj).
  destruct (analyzeResume generateContent JSON_parse (App.resumeText a)
              (App.targetRole a) (App.experienceLevel a) t)
    as [[v | e] t']; reflexivity.
Qed.

(** X13.  The button and the handler agree.  When the button is enabled, a
    click calls the generation service exactly once, with the prompt built
    from the resume text, role and level as typed (the trimming of the
    guard is not applied to what is sent).  When it is disabled and no
    analysis is running, a click would be refused without any call. *)
Theorem enabled_button_calls_service_once generateContent JSON_parse a t :
  (analyzeDisabled a = false ->
   generate_calls (snd (snd (App.click generateContent JSON_parse (a, t))))
   = S (generate_calls t)
   /\ sent_prompts (snd (snd (App.click generateContent JSON_parse (a, t))))
      = sent_prompts t
        ++ [prompt (App.resumeText a) (App.targetRole a)
              (App.experienceLevel a)])
  /\ (analyzeDisabled a = true -> App.isAnalyzing a = false ->
      snd (snd (App.click generateContent JSON_parse (a, t))) = t).
Proof.
  unfold analyzeDisabled. rewrite !trim_truthy_iff, !negb_involutive.
  split.
  - intros Henabled.
    apply orb_false_iff in Henabled as [Henabled Hj].
    apply orb_false_iff in Henabled as [_ Hr].
    rewrite (click_settled generateContent JSON_parse a t Hr Hj).
    pose proof (run_calls_generateContent_once generateContent JSON_parse
                  (App.resumeText a) (App.targetRole a)
                  (App.experienceLevel a) t) as Hcalls.
    pose proof (run_sends_one_prompt generateContent JSON_parse
                  (App.resumeText a) (App.targetRole a)
                  (App.experienceLevel a) t) as Hsent.
    destruct (analyzeResume generateContent JSON_parse (App.resumeText a)
                (App.targetRole a) (App.experienceLevel a) t)
      as [[v | e] t']; simpl in *.
    + rewrite generate_calls_app, sent_prompts_app, Hcalls, Hsent.
      change (generate_calls [EvSetTimeout 500 (lit "machine-results")])
        with O.
      change (sent_prompts [EvSetTimeout 500 (lit "machine-results")])
        with (@nil js_string).
      rewrite app_nil_r. split; [lia | reflexivity].
    + split; assumption.
  - intros Hdisabled Hidle. rewrite Hidle in Hdisabled. simpl in Hdisabled.
    apply orb_true_iff in Hdisabled.
    rewrite (click_blank generateContent JSON_parse a t Hdisabled).
    reflexivity.
Qed.

Lemma enabled_button_calls_service_once_witness :
  sent_prompts
    (snd (snd (App.click (Engine.responds Sample.complete_body)
                 Engine.JSON_parse
                 ({| App.view := App.home;
                     App.resumeText := lit "  Jane Doe  ";
                     App.targetRole := lit " Data Engineer ";
                     App.experienceLevel := Sample.level;
                     App.isAnalyzing := false; App.result := None;
                     App.error := None |}, []))))
  = sent_prompts []
    ++ [prompt (lit "  Jane Doe  ") (lit " Data Engineer ") Sample.level].
Proof.
  destruct (enabled_button_calls_service_once
              (Engine.responds Sample.complete_body) Engine.JSON_parse
              {| App.view := App.home;
                 App.resumeText := lit "  Jane Doe  ";
                 App.targetRole := lit " Data Engineer ";
                 App.experienceLevel := Sample.level;
                 App.isAnalyzing := false; App.result := None;
                 App.error := None |} [])
    as (Henabled & _).
  destruct Henabled as (_ & Hsent).
  - vm_compute. reflexivity.
  - exact Hsent.
Defined.

(** *** What the page shows after an analysis *)

Lemma blank_false_truthy (s : js_string) : blank s = false -> truthy s = true.
Proof. destruct s; [discriminate | reflexivity]. Qed.

(** *** When the results markup can be built *)

Lemma for_each_built {A} (callback : A -> Rendered unit) (items : list A) :
  (forall x, In x items -> callback x = Built tt) ->
  for_each callback items = Built tt.
Proof.
  induction items as [| x r IH]; intros Hall; simpl; [reflexivity |].
  rewrite (Hall x) by (left; reflexivity). simpl.
  apply IH. intros y Hy. apply Hall. right. exact Hy.
Qed.

Lemma conforms_required properties required fields k s :
  conforms (OBJECT properties required) (JObject fields) = true ->
  In k required -> In (k, s) properties ->
  exists v, get (lit k) fields = Some v /\ conforms s v = true.
Proof.
  intros Hc Hreq Hprop. simpl in Hc.
  apply andb_true_iff in Hc as [Hpresent Hdescribed].
  rewrite forallb_forall in Hpresent. specialize (Hpresent k Hreq).
  destruct (get (lit k) fields) as [v |] eqn:Hget; [| discriminate].
  exists v. split; [reflexivity |].
  clear Hpresent Hreq.
  induction properties as [| [k' s'] r IH]; [contradiction |].
  apply andb_true_iff in Hdescribed as [Hhead Htail].
  destruct Hprop as [Heq | Hin].
  - injection Heq as -> ->. rewrite Hget in Hhead. exact Hhead.
  - apply IH; assumption.
Qed.

Lemma conforms_array items v :
  conforms (ARRAY items) v = true ->
  exists vs, v = JArray vs /\ forall x, In x vs -> conforms items x = true.
Proof.
  destruct v as [| | | | vs |]; simpl; try discriminate.
  intros Hall. exists vs. split; [reflexivity |].
  apply forallb_forall. exact Hall.
Qed.

Lemma conforms_object_inv properties required v :
  conforms (OBJECT properties required) v = true ->
  exists fields, v = JObject fields.
Proof. destruct v; simpl; try discriminate. eauto. Qed.

Ltac pick := repeat first [left; reflexivity | right].

Ltac required_field H f k v E C :=
  match type of H with
  | conforms (OBJECT ?props ?req) _ = true =>
      let s := eval cbv in
        ((fix find (ps : list (string * Schema)) : Schema :=
            match ps with
            | [] => NUMBER
            | (k', s') :: r => if String.eqb k k' then s' else find r
            end) props) in
      destruct (@conforms_required props req f k s H
                  ltac:(pick) ltac:(pick)) as (v & E & C)
  end.

Ltac as_object C f :=
  let X := fresh "X" in
  destruct (conforms_object_inv _ _ _ C) as (f & X); subst.

Ltac as_array C vs H :=
  let X := fresh "X" in
  destruct (conforms_array _ _ C) as (vs & X & H); subst.

(** On a value that conforms to the response schema none of the reads of
    the results markup throws. *)
Lemma conforming_report_renders (v : JsValue) :
  conforms responseSchema v = true -> renderResults v = Built tt.
Proof.
  intros Hc.
  destruct (conforms_object_inv _ _ _ Hc) as (fields & ->).
  unfold responseSchema in Hc.
  required_field Hc fields "overallScore"%string score Escore Cscore.
  required_field Hc fields "grammarImprovements"%string g Eg Cg.
  required_field Hc fields "atsOptimization"%string o Eo Co.
  required_field Hc fields "skillGapAnalysis"%string k Ek Ck.
  required_field Hc fields "sectionFeedback"%string b Eb Cb.
  required_field Hc fields "sevenDayActionPlan"%string p Ep Cp.
  clear Hc.
  as_object Cg grammar. as_object Co ats. as_object Ck gap.
  as_object Cb feedback.
  required_field Cg grammar "mistakes"%string m Em Cm.
  required_field Cg grammar "corrections"%string c Ec Cc.
  required_field Co ats "missingKeywords"%string w Ew Cw.
  required_field Ck gap "missingOrWeakSkills"%string x Ex Cx.
  required_field Ck gap "suggestions"%string u Eu Cu.
  clear Cg Co Ck Cb.
  as_array Cp plan Hplan. as_array Cm mistakes Hmistakes.
  as_array Cc corrections Hcorrections. as_array Cw keywords Hkeywords.
  as_array Cx weak Hweak. as_array Cu suggestions Hsuggestions.
  destruct score; try discriminate Cscore.
  unfold renderResults, member, field, member_length, call_map, toPrimitive.
  rewrite Escore, Eg, Eo, Ek, Eb, Ep. cbn [and_then toPrimitive_completes].
  rewrite Em, Ec, Ew, Ex, Eu. cbn [and_then toPrimitive_completes].
  rewrite (for_each_built _ corrections).
  2:{ intros item Hitem.
      destruct (conforms_object_inv _ _ _ (Hcorrections item Hitem))
        as (f & ->).
      reflexivity. }
  cbn [and_then].
  rewrite (for_each_built _ keywords) by reflexivity. cbn [and_then].
  rewrite (for_each_built _ weak) by reflexivity. cbn [and_then].
  rewrite (for_each_built _ suggestions) by reflexivity. cbn [and_then].
  apply for_each_built. intros step Hstep.
  destruct (conforms_object_inv _ _ _ (Hplan step Hstep)) as (f & ->).
  reflexivity.
Qed.

(** A truthy value without an object under [grammarImprovements] makes
    the results markup throw. *)
Lemma report_without_grammar_throws (v : JsValue) :
  toPrimitive (field "overallScore" v) = Built tt ->
  field "grammarImprovements" v = None ->
  ToBoolean v = true ->
  renderResults v = ThrowsTypeError.
Proof.
  intros Hscore Hmissing Htruthy.
  destruct v; try discriminate Htruthy;
    unfold renderResults, member; cbn [and_then];
    rewrite Hscore, Hmissing; reflexivity.
Qed.

(** X14.  After a successful analysis the parsed value is stored as the
    result, the error banner is off, and [renderHome] does one of three
    things.  For a value that is not truthy ([null], [false], [0], the
    empty string) the page stays on the form, with no error at all.  For a
    truthy value it evaluates the results markup: this is built for every
    value that conforms to the response schema, and throws a [TypeError]
    where an unguarded read fails, as for any truthy value that has no
    [grammarImprovements] (the service returns such values as reports,
    see C1). *)
Theorem report_is_rendered_or_throws
  generateContent JSON_parse a t resp text v :
  blank (App.resumeText a) = false ->
  blank (App.targetRole a) = false ->
  generateContent
    (request (App.resumeText a) (App.targetRole a) (App.experienceLevel a))
  = Normal resp ->
  response_text resp = Some text ->
  text <> [] ->
  JSON_parse text = Normal v ->
  App.result (fst (snd (App.click generateContent JSON_parse (a, t))))
  = Some v
  /\ errorBanner (fst (snd (App.click generateContent JSON_parse (a, t))))
     = None
  /\ render (fst (snd (App.click generateContent JSON_parse (a, t))))
     = (if ToBoolean v
        then match renderResults v with
             | Built _ => Built (ResultsPanel v)
             | ThrowsTypeError => ThrowsTypeError
             end
        else Built FormPanel)
  /\ (conforms responseSchema v = true ->
      render (fst (snd (App.click generateContent JSON_parse (a, t))))
      = Built (ResultsPanel v))
  /\ (ToBoolean v = true ->
      toPrimitive (field "overallScore" v) = Built tt ->
      field "grammarImprovements" v = None ->
      render (fst (snd (App.click generateContent JSON_parse (a, t))))
      = ThrowsTypeError).
Proof.
  intros Hr Hj Hg Ht Hne Hp.
  rewrite (click_settled generateContent JSON_parse a t Hr Hj).
  rewrite (run_parsed _ _ _ _ _ t Hg Ht Hne Hp).
  unfold render, renderHome, errorBanner, result_truthy.
  cbn [fst snd App.view App.result App.error App.resumeText].
  rewrite (blank_false_truthy _ Hr). cbn [negb].
  split; [reflexivity |].
  split; [destruct (ToBoolean v); reflexivity |].
  split; [destruct (ToBoolean v); [destruct (renderResults v) |];
          reflexivity |].
  split.
  - intros Hc. rewrite (conforming_report_renders v Hc).
    destruct (conforms_object_inv _ _ _ Hc) as (f & ->). reflexivity.
  - intros Htruthy Hscore Hmissing.
    rewrite Htruthy, (report_without_grammar_throws v Hscore Hmissing Htruthy).
    reflexivity.
Qed.

Lemma report_is_rendered_or_throws_witness :
  render
    (fst (snd (App.click (Engine.responds (lit "null")) Engine.JSON_parse
                 ({| App.view := App.home; App.resumeText := Sample.resume;
                     App.targetRole := Sample.role;
                     App.experienceLevel := Sample.level;
                     App.isAnalyzing := false; App.result := None;
                     App.error := None |}, []))))
  = Built FormPanel
  /\ render
       (fst (snd (App.click (Engine.responds Sample.complete_body)
                    Engine.JSON_parse
                    ({| App.view := App.home; App.resumeText := Sample.resume;
                        App.targetRole := Sample.role;
                        App.experienceLevel := Sample.level;
                        App.isAnalyzing := false; App.result := None;
                        App.error := None |}, []))))
     = Built (ResultsPanel (Sample.parsed Sample.complete_body))
  /\ render
       (fst (snd (App.click
                    (Engine.responds (Sample.json "{'overallScore': 80}"))
                    Engine.JSON_parse
                    ({| App.view := App.home; App.resumeText := Sample.resume;
                        App.targetRole := Sample.role;
                        App.experienceLevel := Sample.level;
                        App.isAnalyzing := false; App.result := None;
                        App.error := None |}, []))))
     = ThrowsTypeError.
Proof.
  split; [| split].
  - refine (proj1 (proj2 (proj2
      (@report_is_rendered_or_throws
         (Engine.responds (lit "null")) Engine.JSON_parse
         {| App.view := App.home; App.resumeText := Sample.resume;
            App.targetRole := Sample.role;
            App.experienceLevel := Sample.level;
            App.isAnalyzing := false; App.result := None;
            App.error := None |} []
         {| response_text := Some (lit "null") |} (lit "null") JNull
         _ _ _ _ _ _)))).
    + vm_compute. reflexivity.
    + vm_compute. reflexivity.
    + reflexivity.
    + reflexivity.
    + vm_compute. discriminate.
    + vm_compute. reflexivity.
  - refine (proj1 (proj2 (proj2 (proj2
      (@report_is_rendered_or_throws
         (Engine.responds Sample.complete_body) Engine.JSON_parse
         {| App.view := App.home; App.resumeText := Sample.resume;
            App.targetRole := Sample.role;
            App.experienceLevel := Sample.level;
            App.isAnalyzing := false; App.result := None;
            App.error := None |} []
         {| response_text := Some Sample.complete_body |}
         Sample.complete_body (Sample.parsed Sample.complete_body)
         _ _ _ _ _ _)))) _).
    + vm_compute. reflexivity.
    + vm_compute. reflexivity.
    + reflexivity.
    + reflexivity.
    + vm_compute. discriminate.
    + vm_compute. reflexivity.
    + vm_compute. reflexivity.
  - refine (proj2 (proj2 (proj2 (proj2
      (@report_is_rendered_or_throws
         (Engine.responds (Sample.json "{'overallScore': 80}"))
         Engine.JSON_parse
         {| App.view := App.home; App.resumeText := Sample.resume;
            App.targetRole := Sample.role;
            App.experienceLevel := Sample.level;
            App.isAnalyzing := false; App.result := None;
            App.error := None |} []
         {| response_text := Some (Sample.json "{'overallScore': 80}") |}
         (Sample.json "{'overallScore': 80}")
         (JObject [(lit "overallScore", JNumber 80 0)])
         _ _ _ _ _ _)))) _ _ _).
    + vm_compute. reflexivity.
    + vm_compute. reflexivity.
    + reflexivity.
    + reflexivity.
    + vm_compute. discriminate.
    + vm_compute. reflexivity.
    + reflexivity.
    + reflexivity.
    + vm_compute. reflexivity.
Defined.

(** X15.  After a failed analysis started from the home view, the page is
    back on the form with the fixed sentence of the service in the error
    banner; a report shown before is gone. *)
Theorem failed_analysis_shows_banner generateContent JSON_parse a t e :
  App.view a = App.home ->
  blank (App.resumeText a) = false ->
  blank (App.targetRole a) = false ->
  fst (analyzeResume generateContent JSON_parse (App.resumeText a)
         (App.targetRole a) (App.experienceLevel a) t) = Abrupt e ->
  render (fst (snd (App.click generateContent JSON_parse (a, t))))
  = Built FormPanel
  /\ errorBanner (fst (snd (App.click generateContent JSON_parse (a, t))))
     = Some failed_message.
Proof.
  intros Hview Hr Hj Hfail.
  pose proof (run_abrupt_inv _ _ _ _ _ _ Hfail) as ->.
  rewrite (click_settled generateContent JSON_parse a t Hr Hj).
  destruct (analyzeResume generateContent JSON_parse (App.resumeText a)
              (App.targetRole a) (App.experienceLevel a) t)
    as [[v | e'] t'] eqn:Hrun; simpl in Hfail; [discriminate |].
  injection Hfail as ->.
  unfold render, renderHome, errorBanner, result_truthy. simpl.
  rewrite Hview, (blank_false_truthy _ Hr). split; reflexivity.
Qed.

Lemma failed_analysis_shows_banner_witness :
  errorBanner
    (fst (snd (App.click (Engine.responds (lit "I am sorry."))
                 Engine.JSON_parse
                 ({| App.view := App.home; App.resumeText := Sample.resume;
                     App.targetRole := Sample.role;
                     App.experienceLevel := Sample.level;
                     App.isAnalyzing := false;
                     App.result := Some (Sample.parsed Sample.complete_body);
                     App.error := None |}, []))))
  = Some failed_message.
Proof.
  refine (proj2
    (@failed_analysis_shows_banner
       (Engine.responds (lit "I am sorry.")) Engine.JSON_parse
       {| App.view := App.home; App.resumeText := Sample.resume;
          App.targetRole := Sample.role;
          App.experienceLevel := Sample.level;
          App.isAnalyzing := false;
          App.result := Some (Sample.parsed Sample.complete_body);
          App.error := None |} [] analysis_failed _ _ _ _)).
  - reflexivity.
  - vm_compute. reflexivity.
  - vm_compute. reflexivity.
  - vm_compute. reflexivity.
Defined.

(** *** Reset and file drop *)

(** X16.  [reset] empties the resume text, the result and the error and
    returns to the home view, so the drop zone is shown with no banner;
    the target role, the experience level and the busy flag are kept, and
    the trace is untouched.  An analysis triggered right after is refused
    without a call, whatever role was left in place. *)
Theorem reset_returns_to_dropzone generateContent JSON_parse (w : App.World) :
  exists a',
    reset w = (Normal tt, (a', snd w))
    /\ render a' = Built DropzonePanel
    /\ errorBanner a' = None
    /\ App.targetRole a' = App.targetRole (fst w)
    /\ App.experienceLevel a' = App.experienceLevel (fst w)
    /\ App.isAnalyzing a' = App.isAnalyzing (fst w)
    /\ App.click generateContent JSON_parse (a', snd w)
       = (Normal tt,
          ({| App.view := App.home; App.resumeText := [];
              App.targetRole := App.targetRole (fst w);
              App.experienceLevel := App.experienceLevel (fst w);
              App.isAnalyzing := App.isAnalyzing (fst w);
              App.result := None;
              App.error := Some validation_message |}, snd w)).
Proof.
  eexists. split; [reflexivity |]. simpl.
  split; [reflexivity |]. split; [reflexivity |].
  split; [reflexivity |]. split; [reflexivity |]. split; [reflexivity |].
  rewrite click_blank by (left; reflexivity). reflexivity.
Qed.

(** X17.  A drop looks at the first accepted file only and changes nothing
    but the resume text and the error: with no file nothing happens at
    all; otherwise view, role, level, busy flag, result and trace are as
    before. *)
Theorem drop_uses_first_file_only (w : App.World) :
  drop_and_load [] w = (Normal tt, w)
  /\ (forall f others, drop_and_load (f :: others) w = drop_and_load [f] w)
  /\ (forall files,
        fst (drop_and_load files w) = Normal tt
        /\ snd (snd (drop_and_load files w)) = snd w
        /\ App.view (fst (snd (drop_and_load files w))) = App.view (fst w)
        /\ App.targetRole (fst (snd (drop_and_load files w)))
           = App.targetRole (fst w)
        /\ App.experienceLevel (fst (snd (drop_and_load files w)))
           = App.experienceLevel (fst w)
        /\ App.isAnalyzing (fst (snd (drop_and_load files w)))
           = App.isAnalyzing (fst w)
        /\ App.result (fst (snd (drop_and_load files w)))
           = App.result (fst w)).
Proof.
  destruct w as [a t]. split; [reflexivity | split; [reflexivity |]].
  intros [| f others]; [repeat split |].
  unfold drop_and_load, onDrop, reader_onload, bind, ret, setResumeText,
    App.setError, App.update.
  destruct (JsString.eqb (file_type f) (lit "application/pdf"));
    destruct (file_text f); simpl; repeat split.
Qed.

(** X18.  What a drop loads.  Once the read has completed, the resume text
    is the text of the file, replacing what was there.  A file of type
    ["application/pdf"] is read as text like any other and sets the PDF
    note as the error; for any other type the error is left as it was, an
    earlier message included.  When the read fails the resume text is
    unchanged. *)
Theorem drop_loads_text_and_flags_pdf (w : App.World) (f : File) others :
  App.resumeText (fst (snd (drop_and_load (f :: others) w)))
  = match file_text f with
    | Some text => text
    | None => App.resumeText (fst w)
    end
  /\ App.error (fst (snd (drop_and_load (f :: others) w)))
     = if JsString.eqb (file_type f) (lit "application/pdf")
       then Some pdf_note
       else App.error (fst w).
Proof.
  destruct w as [a t].
  unfold drop_and_load, onDrop, reader_onload, bind, ret, setResumeText,
    App.setError, App.update.
  destruct (JsString.eqb (file_type f) (lit "application/pdf"));
    destruct (file_text f); simpl; split; reflexivity.
Qed.
